(** * bayou.core.evidence: the evidence kinds of the Bayou encoder

    A shallow embedding of [src/ml/bayou/core/evidence.py].  Python objects
    are attribute dictionaries ([gmap string pyval]) tagged with their class,
    methods that mutate [self] pass the object explicitly and return it
    together with their outcome, and a raised exception is the [Raise] case
    of [result].

    Characters.  A Python [str] is modelled by Rocq's [string]; every
    [ascii] is read as the code point of the same number (0..255), so the
    characters from 128 on are the non-ASCII ones.

    Attributes.  [self.attr] is a lookup in the dictionary of the instance;
    [self.attr = v] an insertion.  The attributes set from a configuration
    and the model [load_embedding] stores under [lda] share that dictionary,
    as they do in Python.

    Collaborators.  What the module imports and the sources do not hold is
    a variable of the section that uses it: the constants [CONFIG_ENCODER],
    [C0] and [UNK], the tokenizer [split_camel], the loader of a topic model
    and the reader of a vocabulary file.  [list(set(l))] is the list of the
    elements of a finite set; no statement below depends on its order. *)

From Stdlib Require Import ZArith String Ascii List.
From stdpp Require Import gmap strings list.

Local Open Scope string_scope.
Local Open Scope list_scope.

(** ** Exceptions and results *)

Inductive pyval (LDA : Type) : Type :=
  | VNone
  | VBool (b : bool)
  | VInt (z : Z)
  | VStr (s : string)
  | VList (l : list string)
  | VDict (d : gmap string Z)
  | VModel (m : LDA).

Arguments VNone {LDA}.
Arguments VBool {LDA} b.
Arguments VInt {LDA} z.
Arguments VStr {LDA} s.
Arguments VList {LDA} l.
Arguments VDict {LDA} d.
Arguments VModel {LDA} m.

(** [TypeError fmt arg] stands for [TypeError(fmt.format(arg))]. *)
Inductive exn (LDA : Type) : Type :=
  | KeyError (key : string)
  | AttributeError (attr : string)
  | IndexError
  | ValueError
  | TypeError (fmt : string) (arg : pyval LDA)
  | NotImplementedError (msg : string)
  | UnicodeEncodeError
  | OSError (path : string).

Arguments KeyError {LDA} key.
Arguments AttributeError {LDA} attr.
Arguments IndexError {LDA}.
Arguments ValueError {LDA}.
Arguments TypeError {LDA} fmt arg.
Arguments NotImplementedError {LDA} msg.
Arguments UnicodeEncodeError {LDA}.
Arguments OSError {LDA} path.

Inductive result (LDA A : Type) : Type :=
  | Ok (a : A)
  | Raise (e : exn LDA).

Arguments Ok {LDA A} a.
Arguments Raise {LDA A} e.

Definition bind {LDA A B} (r : result LDA A) (k : A -> result LDA B) : result LDA B :=
  match r with
  | Ok a => k a
  | Raise e => Raise e
  end.

Notation "'let*' x ':=' r 'in' k" := (bind r (fun x => k))
  (at level 10, x name, r at level 100, k at level 200).

(** ** The [str] methods the module uses *)

Module Str.

(** [s.split(sep)] for a separator of one character. *)
Fixpoint split (sep : ascii) (s : string) : list string :=
  match s with
  | EmptyString => [EmptyString]
  | String c rest =>
      if Ascii.eqb c sep then EmptyString :: split sep rest
      else match split sep rest with
           | [] => [String c EmptyString]
           | w :: ws => String c w :: ws
           end
  end.

(** ['c' in s]. *)
Fixpoint contains (c : ascii) (s : string) : bool :=
  match s with
  | EmptyString => false
  | String d rest => Ascii.eqb d c || contains c rest
  end.

Definition code (c : ascii) : nat := nat_of_ascii c.

Definition between (lo hi : nat) (c : ascii) : bool :=
  (lo <=? code c)%nat && (code c <=? hi)%nat.

(** [c.isspace()] on the code points below 256. *)
Definition isspace (c : ascii) : bool :=
  between 9 13 c || between 28 32 c || between 133 133 c || between 160 160 c.

(** [c.isupper()] on the code points below 256: A-Z and the capital
    letters of Latin-1. *)
Definition isupper (c : ascii) : bool :=
  between 65 90 c || between 192 214 c || between 216 222 c.

(** [c.islower()] on the code points below 256. *)
Definition islower (c : ascii) : bool :=
  between 97 122 c || between 223 246 c || between 248 255 c
  || between 170 170 c || between 181 181 c || between 186 186 c.

Definition lower_char (c : ascii) : ascii :=
  if isupper c then ascii_of_nat (code c + 32) else c.

Fixpoint lower (s : string) : string :=
  match s with
  | EmptyString => EmptyString
  | String c rest => String (lower_char c) (lower rest)
  end.

(** [s[0].isupper()] where [s] has a first character. *)
Definition starts_upper (s : string) : bool :=
  match s with
  | EmptyString => false
  | String c _ => isupper c
  end.

(** The word being read and the words after it. *)
Fixpoint words (s : string) : string * list string :=
  match s with
  | EmptyString => (EmptyString, [])
  | String c rest =>
      let '(w, ws) := words rest in
      if isspace c
      then (EmptyString, match w with EmptyString => ws | _ => w :: ws end)
      else (String c w, ws)
  end.

(** [s.split()]: runs of whitespace separate, no empty word. *)
Definition split_ws (s : string) : list string :=
  let '(w, ws) := words s in
  match w with EmptyString => ws | _ => w :: ws end.

Fixpoint isascii (s : string) : bool :=
  match s with
  | EmptyString => true
  | String c rest => (code c <? 128)%nat && isascii rest
  end.

(** [s.encode('ascii')]: the bytes, or [UnicodeEncodeError]. *)
Definition encode_ascii {LDA} (s : string) : result LDA (list ascii) :=
  if isascii s then Ok (list_ascii_of_string s) else Raise UnicodeEncodeError.

Definition truthy (s : string) : bool :=
  match s with EmptyString => false | _ => true end.

(** [re.sub('<.*', '', s)]: from each [<] to the end of its line
    ([.] matches no newline). *)
Fixpoint sub_generics (inside : bool) (s : string) : string :=
  match s with
  | EmptyString => EmptyString
  | String c rest =>
      if inside then
        if Ascii.eqb c "010" then String c (sub_generics false rest)
        else sub_generics true rest
      else if Ascii.eqb c "<" then sub_generics true rest
      else String c (sub_generics false rest)
  end.

(** [re.sub('\[\]', '', s)]: every [[]] found scanning to the right. *)
Fixpoint sub_array (s : string) : string :=
  match s with
  | EmptyString => EmptyString
  | String c rest =>
      match rest with
      | String d rest' =>
          if Ascii.eqb c "[" && Ascii.eqb d "]" then sub_array rest'
          else String c (sub_array rest)
      | EmptyString => String c EmptyString
      end
  end.

Fixpoint endswith_sep (s : string) : bool :=
  match s with
  | EmptyString => false
  | String c EmptyString => Ascii.eqb c "/"
  | String _ rest => endswith_sep rest
  end.

(** [os.path.join(a, b)] of posixpath. *)
Definition path_join (a b : string) : string :=
  match b with
  | String "/" _ => b
  | _ => if negb (truthy a) || endswith_sep a then a +:+ b
         else a +:+ "/" +:+ b
  end.

End Str.

(** ** Lists: indexing and slicing as Python does them *)

Module Py.
Section Py.
Context {LDA A : Type}.

(** [l[i]], counting from the end for a negative [i]. *)
Definition item (l : list A) (i : Z) : result LDA A :=
  let n := Z.of_nat (length l) in
  let k := if (i <? 0)%Z then (n + i)%Z else i in
  if (k <? 0)%Z then Raise IndexError
  else match l !! Z.to_nat k with
       | Some a => Ok a
       | None => Raise IndexError
       end.

Definition bound (n : nat) (i : Z) : nat :=
  if (i <? 0)%Z then Z.to_nat (Z.max 0 (Z.of_nat n + i))
  else Z.to_nat (Z.min i (Z.of_nat n)).

(** [l[i:]] and [l[:j]]. *)
Definition slice_from (l : list A) (i : Z) : list A := drop (bound (length l) i) l.
Definition slice_to (l : list A) (j : Z) : list A := take (bound (length l) j) l.

End Py.
End Py.

(** ** Objects *)

Inductive cls := cEvidence | cKeywords | cTypes | cContext | cJavadoc.

Record obj (LDA : Type) := Obj {
  ob_class : cls;
  ob_dict : gmap string (pyval LDA)
}.

Arguments Obj {LDA} _ _.
Arguments ob_class {LDA} _.
Arguments ob_dict {LDA} _.

Section Object.
Context {LDA : Type}.

Definition new (c : cls) : obj LDA := Obj c ∅.

Definition setattr (self : obj LDA) (attr : string) (v : pyval LDA) : obj LDA :=
  Obj (ob_class self) (<[attr := v]> (ob_dict self)).

Definition getattr (self : obj LDA) (attr : string) : result LDA (pyval LDA) :=
  match ob_dict self !! attr with
  | Some v => Ok v
  | None => Raise (AttributeError attr)
  end.

(** [d[key]] on a dict. *)
Definition getitem (d : gmap string (pyval LDA)) (key : string) : result LDA (pyval LDA) :=
  match d !! key with
  | Some v => Ok v
  | None => Raise (KeyError key)
  end.

(** The value used where a [str] is required; the interpreter's own
    [TypeError] carries the value and no message. *)
Definition as_str (v : pyval LDA) : result LDA string :=
  match v with
  | VStr s => Ok s
  | _ => Raise (TypeError "" v)
  end.

(** The value used where an [int] is required; [bool] is a subclass of
    [int]. *)
Definition as_int (v : pyval LDA) : result LDA Z :=
  match v with
  | VInt z => Ok z
  | VBool b => Ok (if b then 1%Z else 0%Z)
  | _ => Raise (TypeError "" v)
  end.

(** Truth value of an object. *)
Definition truth (v : pyval LDA) : bool :=
  match v with
  | VNone => false
  | VBool b => b
  | VInt z => negb (z =? 0)%Z
  | VStr s => Str.truthy s
  | VList l => match l with [] => false | _ => true end
  | VDict d => negb (bool_decide (d = ∅))
  | VModel _ => true
  end.

(** [v.model.n_topics] for the value [v] of [self.lda]: a topic model has a
    [model], the values of a configuration have none. *)
Definition n_topics_of (n_topics : LDA -> Z) (v : pyval LDA) : result LDA Z :=
  match v with
  | VModel m => Ok (n_topics m)
  | _ => Raise (AttributeError "model")
  end.

End Object.

(** A program record: every field is optional. *)
Record program := Program {
  keywords : option (list string);
  types : option (list string);
  context : option (list string);
  javadoc : option string
}.

(** [list(set(l))]: the elements of the set in the order the set gives. *)
Definition list_set (l : list string) : list string :=
  elements (list_to_set l : gset string).

(** ** The numeric collaborator

    Tensors of rank two are lists of rows with their static last dimension;
    scalars are any type with a zero, a sum and a product.  A trainable
    variable of a name has, at each index, the value [init] gives it. *)

Module TF.
Section TF.
Context {F : Type}.
Variable zero : F.
Variable add mul : F -> F -> F.
Variable init : string -> nat -> nat -> F.

Record tensor := Tensor {
  dim : nat;
  rows : list (list F)
}.

(** A batch that fits its declared shape. *)
Definition valid (t : tensor) : Prop :=
  Forall (fun r => length r = dim t) (rows t).

Definition vector (name : string) (n : nat) : list F :=
  map (init name 0) (seq 0 n).

(** [tf.get_variable(name, [r, c])] and [tf.get_variable(name, [n])]
    inside the variable scope [scope]. *)
Definition get_variable2 (scope name : string) (r c : nat) : tensor :=
  Tensor c (map (fun i => map (init (scope +:+ "/" +:+ name) i) (seq 0 c)) (seq 0 r)).

Definition get_variable1 (scope name : string) (n : nat) : list F :=
  vector (scope +:+ "/" +:+ name) n.

Definition vadd (u v : list F) : list F := zip_with add u v.

Definition vscale (a : F) (v : list F) : list F := map (mul a) v.

(** One row times a matrix: the sum of the matrix rows scaled by the
    entries of the row. *)
Definition vec_mat (n : nat) (x : list F) (w : list (list F)) : list F :=
  fold_left (fun acc p => vadd acc (vscale (fst p) (snd p))) (zip x w) (replicate n zero).

Definition matmul (x w : tensor) : tensor :=
  Tensor (dim w) (map (fun r => vec_mat (dim w) r (rows w)) (rows x)).

Definition bias_add (x : tensor) (b : list F) : tensor :=
  Tensor (dim x) (map (fun r => vadd r b) (rows x)).

(** [tf.nn.xw_plus_b(x, w, b)]. *)
Definition xw_plus_b (x w : tensor) (b : list F) : tensor :=
  bias_add (matmul x w) b.

(** [tf.layers.dense(inputs, units)] in [scope]: a kernel of shape
    [[dim inputs, units]], a bias of shape [[units]], no activation. *)
Definition dense (scope : string) (inputs : tensor) (units : nat) : tensor :=
  let kernel := get_variable2 (scope +:+ "/dense") "kernel" (dim inputs) units in
  let bias := get_variable1 (scope +:+ "/dense") "bias" units in
  bias_add (matmul inputs kernel) bias.

(** A dimension of a shape: a negative one is refused. *)
Definition dimension {LDA} (z : Z) : result LDA nat :=
  if (z <? 0)%Z then Raise ValueError else Ok (Z.to_nat z).

(** [tf.placeholder(tf.float32, shape)]: the shape it declares. *)
Fixpoint placeholder {LDA} (shape : list Z) : result LDA (list nat) :=
  match shape with
  | [] => Ok []
  | z :: rest =>
      let* d := dimension z in
      let* ds := placeholder rest in
      Ok (d :: ds)
  end.

End TF.
End TF.

Arguments TF.tensor : clear implicits.
Arguments TF.Tensor {F} _ _.
Arguments TF.dim {F} _.
Arguments TF.rows {F} _.

(** The part of the model configuration [encode] reads. *)
Record config := Config {
  latent_size : Z;
  batch_size : Z
}.

(** ** Keywords *)

Module Keywords.
Section Keywords.
Context {LDA F : Type}.
Variable LDA_from_file : string -> result LDA LDA.
(** [m.model.n_topics] of a topic model. *)
Variable n_topics : LDA -> Z.
Variable split_camel : string -> list string.
Variable zero : F.
Variable add mul : F -> F -> F.
Variable init : string -> nat -> nat -> F.

Definition load_embedding (self : obj LDA) (save_dir : string) : obj LDA * result LDA unit :=
  let embed_save_dir := Str.path_join save_dir "embed_keywords" in
  match LDA_from_file (Str.path_join embed_save_dir "model.pkl") with
  | Ok m => (setattr self "lda" (VModel m), Ok tt)
  | Raise e => (self, Raise e)
  end.

Definition read_data_point (program : program) : list string :=
  let keywords := match keywords program with Some l => l | None => [] end in
  let keywords := list_set keywords in
  keywords.

Definition placeholder (self : obj LDA) (config : config) : result LDA (list nat) :=
  let* lda := getattr self "lda" in
  let* topics := n_topics_of n_topics lda in
  TF.placeholder [batch_size config; topics].

Definition encode (self : obj LDA) (inputs : TF.tensor F) (config : config)
  : result LDA (list (TF.tensor F)) :=
  let* units := getattr self "units" in
  let* units := as_int units in
  let* units := TF.dimension units in
  let encoding := TF.dense zero add mul init "keywords" inputs units in
  let* latent := TF.dimension (latent_size config) in
  let w := TF.get_variable2 init "keywords" "w" units latent in
  let b := TF.get_variable1 init "keywords" "b" latent in
  let latent_encoding := TF.xw_plus_b zero add mul encoding w b in
  let* tile := getattr self "tile" in
  let* tile := as_int tile in
  Ok (replicate (Z.to_nat tile) latent_encoding).

Definition from_call (call : string) : result LDA (list string) :=
  let* before := Py.item (Str.split "(" call) 0 in
  let split := Str.split "." before in
  match Py.slice_from split (-2) with
  | [cls; name] => Ok (if negb (String.eqb cls name) then split_camel name else [])
  | _ => Raise ValueError
  end.

End Keywords.
End Keywords.

(** ** Types *)

Module Types.
Section Types.
Context {LDA F : Type}.
Variable LDA_from_file : string -> result LDA LDA.
(** [m.model.n_topics] of a topic model. *)
Variable n_topics : LDA -> Z.
Variable split_camel : string -> list string.
Variable zero : F.
Variable add mul : F -> F -> F.
Variable init : string -> nat -> nat -> F.

Definition load_embedding (self : obj LDA) (save_dir : string) : obj LDA * result LDA unit :=
  let embed_save_dir := Str.path_join save_dir "embed_types" in
  match LDA_from_file (Str.path_join embed_save_dir "model.pkl") with
  | Ok m => (setattr self "lda" (VModel m), Ok tt)
  | Raise e => (self, Raise e)
  end.

Definition read_data_point (program : program) : list string :=
  let types := match types program with Some l => l | None => [] end in
  let types := list_set types in
  types.

Definition placeholder (self : obj LDA) (config : config) : result LDA (list nat) :=
  let* lda := getattr self "lda" in
  let* topics := n_topics_of n_topics lda in
  TF.placeholder [batch_size config; topics].

Definition encode (self : obj LDA) (inputs : TF.tensor F) (config : config)
  : result LDA (list (TF.tensor F)) :=
  let* units := getattr self "units" in
  let* units := as_int units in
  let* units := TF.dimension units in
  let encoding := TF.dense zero add mul init "types" inputs units in
  let* latent := TF.dimension (latent_size config) in
  let w := TF.get_variable2 init "types" "w" units latent in
  let b := TF.get_variable1 init "types" "b" latent in
  let latent_encoding := TF.xw_plus_b zero add mul encoding w b in
  let* tile := getattr self "tile" in
  let* tile := as_int tile in
  Ok (replicate (Z.to_nat tile) latent_encoding).

(** [[q for q in qs if q[0].isupper()]]: [q[0]] of an empty segment is an
    [IndexError]. *)
Fixpoint upper_segments (qs : list string) : result LDA (list string) :=
  match qs with
  | [] => Ok []
  | q :: rest =>
      let* c := Py.item (list_ascii_of_string q) 0 in
      let* kept := upper_segments rest in
      Ok (if Str.isupper c then q :: kept else kept)
  end.

Definition from_call (call : string) : result LDA (list string) :=
  let* before := Py.item (Str.split "(" call) 0 in
  let* kept := upper_segments (Py.slice_to (Str.split "." before) (-1)) in
  let split := rev kept in
  let* inner := Py.item split 0 in
  let inner := split_camel inner in
  let* outer :=
    if (1 <? length split)%nat
    then let* outer := Py.item split 1 in Ok (split_camel outer)
    else Ok [] in
  Ok (inner ++ outer).

End Types.
End Types.

(** ** Context *)

Module Context.
Section Context.
Context {LDA F : Type}.
Variable LDA_from_file : string -> result LDA LDA.
(** [m.model.n_topics] of a topic model. *)
Variable n_topics : LDA -> Z.
Variable split_camel : string -> list string.
Variable zero : F.
Variable add mul : F -> F -> F.
Variable init : string -> nat -> nat -> F.

Definition load_embedding (self : obj LDA) (save_dir : string) : obj LDA * result LDA unit :=
  let embed_save_dir := Str.path_join save_dir "embed_context" in
  match LDA_from_file (Str.path_join embed_save_dir "model.pkl") with
  | Ok m => (setattr self "lda" (VModel m), Ok tt)
  | Raise e => (self, Raise e)
  end.

Definition read_data_point (program : program) : list string :=
  let context := match context program with Some l => l | None => [] end in
  let context := list_set context in
  context.

Definition placeholder (self : obj LDA) (config : config) : result LDA (list nat) :=
  let* lda := getattr self "lda" in
  let* topics := n_topics_of n_topics lda in
  TF.placeholder [batch_size config; topics].

Definition encode (self : obj LDA) (inputs : TF.tensor F) (config : config)
  : result LDA (list (TF.tensor F)) :=
  let* units := getattr self "units" in
  let* units := as_int units in
  let* units := TF.dimension units in
  let encoding := TF.dense zero add mul init "context" inputs units in
  let* latent := TF.dimension (latent_size config) in
  let w := TF.get_variable2 init "context" "w" units latent in
  let b := TF.get_variable1 init "context" "b" latent in
  let latent_encoding := TF.xw_plus_b zero add mul encoding w b in
  let* tile := getattr self "tile" in
  let* tile := as_int tile in
  Ok (replicate (Z.to_nat tile) latent_encoding).

(** [[arg.split('.')[-1] for arg in args]]. *)
Fixpoint last_segments (args : list string) : result LDA (list string) :=
  match args with
  | [] => Ok []
  | arg :: rest =>
      let* seg := Py.item (Str.split "." arg) (-1) in
      let* segs := last_segments rest in
      Ok (seg :: segs)
  end.

Definition from_call (call : string) : result LDA (list string) :=
  let* inside := Py.item (Str.split "(" call) 1 in
  let* inside := Py.item (Str.split ")" inside) 0 in
  let args := Str.split "," inside in
  let* args := last_segments args in
  let args := map (Str.sub_generics false) args in
  let args := map Str.sub_array args in
  let contexts := concat (map split_camel args) in
  Ok (filter (fun c => c ≠ "") contexts).

End Context.
End Context.

(** ** Javadoc *)

Module Javadoc.
Section Javadoc.
Context {LDA : Type}.
(** The constants [C0] and [UNK] of [bayou.core.utils]. *)
Variable C0 UNK : string.
(** [json.load(open(path))['chars']]: the vocabulary a file holds. *)
Variable load_chars : string -> result LDA (list string).

Definition read_data_point (program : program) (infer : bool) : result LDA (list string) :=
  let javadoc := javadoc program in
  let javadoc :=
    match javadoc with
    | Some s => if negb (Str.truthy s) then UNK else s
    | None => UNK
    end in
  let* javadoc :=
    match Str.encode_ascii javadoc with
    | Ok _ => Ok javadoc
    | Raise UnicodeEncodeError => Ok UNK
    | Raise e => Raise e
    end in
  let javadoc := Str.split_ws javadoc in
  Ok javadoc.

(** [dict(zip(chars, range(len(chars))))]: a later pair replaces an earlier
    one of the same key. *)
Definition dict_zip (chars : list string) : gmap string Z :=
  fold_left (fun d p => <[fst p := snd p]> d)
            (zip chars (map Z.of_nat (seq 0 (length chars)))) ∅.

Definition set_dicts (self : obj LDA) (data : list (list string)) : obj LDA * result LDA unit :=
  let chars :=
    let* pretrained_embed := getattr self "pretrained_embed" in
    if truth pretrained_embed then
      let* dir := getattr self "save_dir" in
      let* name := getattr self "name" in
      let* name := as_str name in
      let* dir := as_str dir in
      let save_dir := Str.path_join dir ("embed_" +:+ name) in
      load_chars (Str.path_join save_dir "config.json")
    else Ok (C0 :: list_set (concat data)) in
  match chars with
  | Raise e => (self, Raise e)
  | Ok chars =>
      let self := setattr self "chars" (VList chars) in
      let vocab := dict_zip chars in
      let self := setattr self "vocab" (VDict vocab) in
      let self := setattr self "vocab_size" (VInt (Z.of_nat (size vocab))) in
      (self, Ok tt)
  end.

End Javadoc.
End Javadoc.

(** ** Evidence: the shared methods and the registry *)

Module Evidence.
Section Evidence.
Context {LDA : Type}.
(** The attribute list [CONFIG_ENCODER] of [bayou.core.utils]. *)
Variable CONFIG_ENCODER : list string.
Variable LDA_from_file : string -> result LDA LDA.

(** [self.load_embedding(save_dir)]: the method of the object's class;
    Javadoc inherits the one of Evidence. *)
Definition load_embedding (self : obj LDA) (save_dir : string) : obj LDA * result LDA unit :=
  match ob_class self with
  | cKeywords => Keywords.load_embedding LDA_from_file self save_dir
  | cTypes => Types.load_embedding LDA_from_file self save_dir
  | cContext => Context.load_embedding LDA_from_file self save_dir
  | cJavadoc | cEvidence =>
      (self, Raise (NotImplementedError "load_embedding() has not been implemented"))
  end.

(** The loop of [init_config] over the attributes left. *)
Fixpoint copy_attrs (attrs : list string) (self : obj LDA)
    (evidence : gmap string (pyval LDA)) : obj LDA * result LDA unit :=
  match attrs with
  | [] => (self, Ok tt)
  | attr :: rest =>
      match getitem evidence attr with
      | Ok v => copy_attrs rest (setattr self attr v) evidence
      | Raise e => (self, Raise e)
      end
  end.

Definition init_config (self : obj LDA) (evidence : gmap string (pyval LDA))
    (save_dir : string) : obj LDA * result LDA unit :=
  match copy_attrs CONFIG_ENCODER self evidence with
  | (self, Ok _) => load_embedding self save_dir
  | (self, Raise e) => (self, Raise e)
  end.

(** The dict comprehension of [dump_config], from the entries in [js]. *)
Fixpoint dump_attrs (attrs : list string) (self : obj LDA)
    (js : gmap string (pyval LDA)) : result LDA (gmap string (pyval LDA)) :=
  match attrs with
  | [] => Ok js
  | attr :: rest =>
      let* v := getattr self attr in
      dump_attrs rest self (<[attr := v]> js)
  end.

Definition dump_config (self : obj LDA) : result LDA (gmap string (pyval LDA)) :=
  dump_attrs CONFIG_ENCODER self ∅.

(** [name == s] for a string literal [s]. *)
Definition eq_str (name : pyval LDA) (s : string) : bool :=
  match name with
  | VStr n => String.eqb n s
  | _ => false
  end.

(** The [if]/[elif] chain of [read_config]. *)
Definition dispatch (name : pyval LDA) : result LDA (obj LDA) :=
  if eq_str name "keywords" then Ok (new cKeywords)
  else if eq_str name "types" then Ok (new cTypes)
  else if eq_str name "context" then Ok (new cContext)
  else Raise (TypeError "Invalid evidence name: {}" name).

(** The loop of [read_config] over the entries left. *)
Fixpoint read_entries (js : list (gmap string (pyval LDA))) (save_dir : string)
    (evidences : list (obj LDA)) : result LDA (list (obj LDA)) :=
  match js with
  | [] => Ok evidences
  | evidence :: rest =>
      let* name := getitem evidence "name" in
      let* e := dispatch name in
      match init_config e evidence save_dir with
      | (e, Ok _) => read_entries rest save_dir (evidences ++ [e])
      | (_, Raise x) => Raise x
      end
  end.

Definition read_config (js : list (gmap string (pyval LDA))) (save_dir : string)
  : result LDA (list (obj LDA)) :=
  read_entries js save_dir [].

End Evidence.
End Evidence.

(** ** The tokenizer of bayou.core.utils *)

(** The piece being read and the pieces after it: a new piece starts at a
    capital that follows a small letter. *)
Fixpoint camel_pieces (s : string) : string * list string :=
  match s with
  | EmptyString => (EmptyString, [])
  | String c rest =>
      let '(w, ws) := camel_pieces rest in
      match rest with
      | String d _ =>
          if Str.islower c && Str.isupper d then (String c EmptyString, w :: ws)
          else (String c w, ws)
      | EmptyString => (String c EmptyString, [])
      end
  end.

(** Modelled from the spec: [split_camel] of [bayou.core.utils], which is
    not among the sources.  The specification has it tokenize an identifier
    at its internal case-transition boundaries into lowercase sub-words. *)
Definition split_camel (s : string) : list string :=
  let '(w, ws) := camel_pieces s in
  map Str.lower (w :: ws).

(** ** What [encode] is expected to return

    [tile] copies of one latent encoding, which has a row of [latent]
    entries for each of the [batch] rows of the input. *)
Definition tiled {LDA F : Type} (r : result LDA (list (TF.tensor F)))
    (tile latent : Z) (batch : nat) : Prop :=
  exists encodings enc,
    r = Ok encodings
    /\ Z.of_nat (length encodings) = tile
    /\ Forall (fun e => e = enc) encodings
    /\ Z.of_nat (TF.dim enc) = latent
    /\ length (TF.rows enc) = batch
    /\ Forall (fun row => Z.of_nat (length row) = latent) (TF.rows enc).

(** The variables [inside] has under the names that start with [scope],
    and the ones [outside] has under every other name. *)
Definition overlay {F : Type} (scope : string) (inside outside : string -> nat -> nat -> F)
    (name : string) : nat -> nat -> F :=
  if String.prefix scope name then inside name else outside name.

(** Every character of a string passes a test. *)
Fixpoint all_chars (p : ascii -> bool) (s : string) : bool :=
  match s with
  | EmptyString => true
  | String c rest => p c && all_chars p rest
  end.

(** A word: not empty, and without whitespace. *)
Definition is_word (s : string) : Prop :=
  s <> "" /\ all_chars (fun c => negb (Str.isspace c)) s = true.

(** The number an instance has under [vocab_size], if any. *)
Definition vocab_size_of {LDA : Type} (self : obj LDA) : option Z :=
  match ob_dict self !! "vocab_size" with
  | Some (VInt n) => Some n
  | _ => None
  end.

(** ** What the registry and the configuration are expected to do *)

(** The dispatch table of the specification: the class of each name. *)
Definition kind_named {LDA : Type} (name : pyval LDA) : option cls :=
  match name with
  | VStr s =>
      if decide (s = "keywords") then Some cKeywords
      else if decide (s = "types") then Some cTypes
      else if decide (s = "context") then Some cContext
      else None
  | _ => None
  end.

(** An entry and the instance made from it: the class is the one the
    table gives for the name of the entry. *)
Definition made_from {LDA : Type} (evidence : gmap string (pyval LDA)) (e : obj LDA) : Prop :=
  exists name, evidence !! "name" = Some name /\ kind_named name = Some (ob_class e).

(** A configuration record restricted to a list of attributes. *)
Definition restrict {LDA : Type} (attrs : list string)
    (cfg : gmap string (pyval LDA)) : gmap string (pyval LDA) :=
  filter (fun kv => kv.1 ∈ attrs) cfg.

(** The vocabulary and the character list of an instance, empty when it
    has none. *)
Definition vocab_of {LDA : Type} (self : obj LDA) : gmap string Z :=
  match ob_dict self !! "vocab" with
  | Some (VDict d) => d
  | _ => ∅
  end.

Definition chars_of {LDA : Type} (self : obj LDA) : list string :=
  match ob_dict self !! "chars" with
  | Some (VList l) => l
  | _ => []
  end.

(** ** Data of the examples *)

Definition encoder_attrs : list string := ["name"; "units"; "tile"].

Definition entry (name : string) : gmap string (pyval unit) :=
  <["name" := VStr name]> (<["units" := VInt 8]> (<["tile" := VInt 1]>
    (<["comment" := VStr "not an attribute"]> ∅))).

Definition keywords_cfg : gmap string (pyval unit) := entry "keywords".
Definition types_cfg : gmap string (pyval unit) := entry "types".
Definition context_cfg : gmap string (pyval unit) := entry "context".
Definition javadoc_cfg : gmap string (pyval unit) := entry "javadoc".

(** Every model file is there. *)
Definition any_file (path : string) : result unit unit := Ok tt.

(** A Javadoc instance set to read its vocabulary from a file, and one set
    to build it from the corpus. *)
Definition javadoc_pretrained : obj unit :=
  setattr (setattr (setattr (new cJavadoc) "pretrained_embed" (VBool true))
             "save_dir" (VStr "save")) "name" (VStr "javadoc").

Definition javadoc_corpus : obj unit :=
  setattr (new cJavadoc) "pretrained_embed" (VBool false).

(** * Properties *)

(** ** Indexing and splitting *)

Section ListFacts.
Context {LDA A : Type}.

Lemma item_head (l : list A) (a : A) :
  head l = Some a -> Py.item (LDA:=LDA) l 0 = Ok a.
Proof. destruct l as [|b l]; intros H; inversion H; reflexivity. Qed.

Lemma item_nil (i : Z) : Py.item (LDA:=LDA) (@nil A) i = Raise IndexError.
Proof.
  unfold Py.item. change (Z.of_nat (length (@nil A))) with 0%Z.
  rewrite Z.add_0_l. destruct (i <? 0)%Z eqn:Hi; rewrite Hi; reflexivity.
Qed.

Lemma slice_from_last_two (l : list A) (a b : A) :
  Py.slice_from (l ++ [a; b]) (-2) = [a; b].
Proof.
  unfold Py.slice_from.
  assert (Py.bound (length (l ++ [a; b])) (-2) = length l) as ->.
  { unfold Py.bound. rewrite length_app. simpl length.
    destruct (-2 <? 0)%Z eqn:E; [lia | discriminate E]. }
  apply drop_app_length.
Qed.

Lemma slice_from_single (a : A) : Py.slice_from [a] (-2) = [a].
Proof. reflexivity. Qed.

End ListFacts.

Module StrFacts.

Lemma split_nonempty (sep : ascii) (s : string) : Str.split sep s <> [].
Proof.
  destruct s as [|c s]; simpl; [discriminate|].
  destruct (Ascii.eqb c sep); [discriminate|].
  destruct (Str.split sep s); discriminate.
Qed.

Lemma split_head (sep : ascii) (s : string) : is_Some (head (Str.split sep s)).
Proof.
  pose proof (split_nonempty sep s) as H.
  destruct (Str.split sep s); [contradiction|]. simpl. eauto.
Qed.

Lemma split_absent (sep : ascii) (s : string) :
  Str.contains sep s = false -> Str.split sep s = [s].
Proof.
  induction s as [|c s IH]; simpl; [reflexivity|].
  intros H. apply orb_false_iff in H as [Hc Hs].
  rewrite Hc, (IH Hs). reflexivity.
Qed.

End StrFacts.

(** ** The extraction heuristics *)

Section FromCall.
Context {LDA : Type}.
Variable tokenizer : string -> list string.

(** C7.  A call whose part before the first parenthesis ends in two equal
    dot-segments (a constructor: class and member are the same) gives
    Keywords.from_call no token at all, whatever the tokenizer is. *)
Theorem Keywords_from_call_constructor (call before name : string) (outer : list string) :
  head (Str.split "(" call) = Some before ->
  Str.split "." before = outer ++ [name; name] ->
  Keywords.from_call (LDA:=LDA) tokenizer call = Ok [].
Proof.
  intros Hbefore Hsplit. unfold Keywords.from_call.
  rewrite (item_head _ _ Hbefore). simpl bind.
  rewrite Hsplit, slice_from_last_two, String.eqb_refl. reflexivity.
Qed.

(** C10.  A call with no dot before its first parenthesis makes
    Keywords.from_call raise: the split has one segment and two are
    unpacked. *)
Theorem Keywords_from_call_no_dot (call before : string) :
  head (Str.split "(" call) = Some before ->
  Str.contains "." before = false ->
  Keywords.from_call (LDA:=LDA) tokenizer call = Raise ValueError.
Proof.
  intros Hbefore Hdot. unfold Keywords.from_call.
  rewrite (item_head _ _ Hbefore). simpl bind.
  rewrite (StrFacts.split_absent _ _ Hdot). reflexivity.
Qed.

Lemma upper_segments_none (qs : list string) :
  Forall (fun q => Str.starts_upper q = false) qs ->
  Types.upper_segments (LDA:=LDA) qs = Ok [] \/
  Types.upper_segments (LDA:=LDA) qs = Raise IndexError.
Proof.
  induction 1 as [|q qs Hq _ IH]; simpl; [by left|].
  destruct q as [|c q]; [by right|].
  simpl in Hq. change (Py.item _ 0) with (@Ok LDA _ c). simpl bind.
  destruct IH as [-> | ->]; simpl; [rewrite Hq; by left | by right].
Qed.

(** C9.  When no dot-segment before the first parenthesis, the last one
    left aside, starts with a capital, Types.from_call raises: the list of
    kept segments is empty and its first item is read. *)
Theorem Types_from_call_no_capital (call before : string) :
  head (Str.split "(" call) = Some before ->
  Forall (fun q => Str.starts_upper q = false)
         (Py.slice_to (Str.split "." before) (-1)) ->
  Types.from_call (LDA:=LDA) tokenizer call = Raise IndexError.
Proof.
  intros Hbefore Hnone. unfold Types.from_call.
  rewrite (item_head _ _ Hbefore). simpl bind.
  destruct (upper_segments_none _ Hnone) as [-> | ->]; reflexivity.
Qed.

End FromCall.

Lemma Keywords_from_call_constructor_witness :
  Keywords.from_call (LDA:=unit) split_camel "java.util.ArrayList.ArrayList(int)" = Ok [].
Proof.
  apply (Keywords_from_call_constructor split_camel _ "java.util.ArrayList.ArrayList"
           "ArrayList" ["java"; "util"]); reflexivity.
Defined.

Lemma Keywords_from_call_no_dot_witness :
  Keywords.from_call (LDA:=unit) split_camel "add(x)" = Raise ValueError.
Proof.
  apply (Keywords_from_call_no_dot split_camel "add(x)" "add"); reflexivity.
Defined.

Lemma Types_from_call_no_capital_witness :
  Types.from_call (LDA:=unit) split_camel "obj.run(x)" = Raise IndexError.
Proof.
  apply (Types_from_call_no_capital split_camel "obj.run(x)" "obj.run"); [reflexivity|].
  repeat constructor.
Defined.

Example Types_from_call_foo :
  Types.from_call (LDA:=unit) split_camel "foo(x)" = Raise IndexError.
Proof. reflexivity. Qed.

Example Keywords_from_call_list_add :
  Keywords.from_call (LDA:=unit) split_camel "list.add(x)" = Ok ["add"].
Proof. reflexivity. Qed.

Example Types_from_call_foo_bar :
  Types.from_call (LDA:=unit) split_camel "Foo.Bar.baz(x)" = Ok ["bar"; "foo"].
Proof. reflexivity. Qed.

(** C8, as the specification gives it: the tokens would be [b] and [c].
    The code hands the tokenizer the second argument with the blank that
    follows the comma, so this is not what it returns. *)
Lemma Context_from_call_example_fails :
  ~ (Context.from_call (LDA:=unit) split_camel "m(a.B<T>, c[])" = Ok ["b"; "c"]).
Proof. vm_compute. discriminate. Qed.

(** C8, amended.  On [m(a.B<T>, c[])] Context.from_call tokenizes the
    cleaned arguments [B] and [ c] (the blank after the comma is kept) and
    drops the empty tokens; with the tokenizer of the specification that is
    [b] and [ c]. *)
Theorem Context_from_call_example (LDA : Type) :
  (forall tokenizer : string -> list string,
     @Context.from_call LDA tokenizer "m(a.B<T>, c[])"
     = Ok (filter (fun c => c ≠ "") (tokenizer "B" ++ tokenizer " c")))
  /\ @Context.from_call LDA split_camel "m(a.B<T>, c[])" = Ok ["b"; " c"].
Proof.
  split; [intros tokenizer|]; unfold Context.from_call; simpl;
    rewrite ?app_nil_r; reflexivity.
Qed.

(** ** Reading a program record *)

(** C5.  A record with no javadoc, with an empty one, or with one that
    holds a character outside ASCII gives Javadoc.read_data_point the
    words of the unknown sentinel, and no exception. *)
Theorem Javadoc_read_data_point_sentinel (LDA : Type) (UNK : string)
    (program : program) (infer : bool) :
  javadoc program = None \/ javadoc program = Some "" \/
    (exists s, javadoc program = Some s /\ Str.isascii s = false) ->
  Javadoc.read_data_point (LDA:=LDA) UNK program infer = Ok (Str.split_ws UNK).
Proof.
  intros H. unfold Javadoc.read_data_point, Str.encode_ascii.
  destruct H as [-> | [-> | (s & -> & Hs)]]; simpl.
  - destruct (Str.isascii UNK); reflexivity.
  - destruct (Str.isascii UNK); reflexivity.
  - destruct s as [|c s]; [discriminate Hs|]. simpl Str.truthy. simpl negb.
    cbv iota. rewrite Hs. reflexivity.
Qed.

Lemma Javadoc_read_data_point_sentinel_witness :
  Javadoc.read_data_point (LDA:=unit) "_UNK_"
    (Program None None None (Some (String "233"%char "t"))) false
  = Ok ["_UNK_"].
Proof.
  apply (Javadoc_read_data_point_sentinel unit "_UNK_"
           (Program None None None (Some (String "233"%char "t"))) false).
  right. right. eexists. split; reflexivity.
Defined.

Example Javadoc_read_data_point_missing :
  Javadoc.read_data_point (LDA:=unit) "_UNK_" (Program None None None None) false
  = Ok ["_UNK_"].
Proof. reflexivity. Qed.

Example Javadoc_read_data_point_words :
  Javadoc.read_data_point (LDA:=unit) "_UNK_"
    (Program None None None (Some "reads  a file")) false
  = Ok ["reads"; "a"; "file"].
Proof. reflexivity. Qed.

Lemma list_set_NoDup (l : list string) : NoDup (list_set l).
Proof. unfold list_set. apply NoDup_elements. Qed.

Lemma list_set_elem_of (l : list string) (x : string) : x ∈ list_set l <-> x ∈ l.
Proof. unfold list_set. rewrite elem_of_elements, elem_of_list_to_set. reflexivity. Qed.

Lemma list_set_nil : list_set [] = [].
Proof. unfold list_set. simpl. apply elements_empty. Qed.

(** C3.  The lists Keywords, Types and Context read from a program record
    hold no entry twice, whatever the field holds (and they hold the
    entries of the field, no other); a record without the field gives the
    empty list. *)
Theorem read_data_point_dedup (program : program)
    (k t c : option (list string)) (j : option string) :
  (NoDup (Keywords.read_data_point program)
   /\ NoDup (Types.read_data_point program)
   /\ NoDup (Context.read_data_point program))
  /\ (forall x, x ∈ Keywords.read_data_point program <-> x ∈ default [] (keywords program))
  /\ (forall x, x ∈ Types.read_data_point program <-> x ∈ default [] (types program))
  /\ (forall x, x ∈ Context.read_data_point program <-> x ∈ default [] (context program))
  /\ Keywords.read_data_point (Program None t c j) = []
  /\ Types.read_data_point (Program k None c j) = []
  /\ Context.read_data_point (Program k t None j) = [].
Proof.
  unfold Keywords.read_data_point, Types.read_data_point, Context.read_data_point.
  split; [repeat split; apply list_set_NoDup|].
  destruct program as [pk pt pc pj]; simpl.
  split; [intros x; rewrite list_set_elem_of; by destruct pk|].
  split; [intros x; rewrite list_set_elem_of; by destruct pt|].
  split; [intros x; rewrite list_set_elem_of; by destruct pc|].
  repeat split; apply list_set_nil.
Qed.

Example Keywords_read_data_point_duplicates :
  Keywords.read_data_point (Program (Some ["read"; "file"; "read"]) None None None)
  ≡ₚ ["read"; "file"].
Proof.
  apply NoDup_Permutation.
  - apply list_set_NoDup.
  - apply (bool_decide_unpack _). reflexivity.
  - intros x. unfold Keywords.read_data_point. simpl. rewrite list_set_elem_of.
    rewrite !elem_of_cons, elem_of_nil. tauto.
Qed.

(** ** Shapes of the encodings *)

Create HintDb shapes.

Section Shapes.
Context {F : Type}.
Variable zero : F.
Variable add mul : F -> F -> F.
Variable init : string -> nat -> nat -> F.

Lemma vadd_length (u v : list F) (n : nat) :
  length u = n -> length v = n -> length (TF.vadd add u v) = n.
Proof. intros Hu Hv. unfold TF.vadd. rewrite length_zip_with. lia. Qed.

Lemma fold_rows_length (n : nat) (ps : list (F * list F)) (acc : list F) :
  length acc = n ->
  Forall (fun p => length (snd p) = n) ps ->
  length (fold_left (fun acc p => TF.vadd add acc (TF.vscale mul (fst p) (snd p))) ps acc) = n.
Proof.
  intros Hacc Hps. revert acc Hacc.
  induction Hps as [|p ps Hp _ IH]; intros acc Hacc; simpl; [exact Hacc|].
  apply IH, vadd_length; [exact Hacc|].
  unfold TF.vscale. rewrite length_map. exact Hp.
Qed.

Lemma zip_rows_length (n : nat) (x : list F) (w : list (list F)) :
  Forall (fun r => length r = n) w ->
  Forall (fun p => length (snd p) = n) (zip x w).
Proof.
  intros Hw. revert x. induction Hw as [|r w Hr _ IH]; intros [|a x]; simpl;
    constructor; auto.
Qed.

Lemma vec_mat_length (n : nat) (x : list F) (w : list (list F)) :
  Forall (fun r => length r = n) w ->
  length (TF.vec_mat zero add mul n x w) = n.
Proof.
  intros Hw. unfold TF.vec_mat. apply fold_rows_length.
  - apply length_replicate.
  - apply zip_rows_length, Hw.
Qed.

Lemma get_variable2_valid (scope name : string) (r c : nat) :
  TF.valid (TF.get_variable2 init scope name r c).
Proof.
  unfold TF.valid, TF.get_variable2. simpl. apply Forall_map, Forall_forall.
  intros i _. simpl. rewrite length_map. apply length_seq.
Qed.

Lemma get_variable1_length (scope name : string) (n : nat) :
  length (TF.get_variable1 init scope name n) = n.
Proof. unfold TF.get_variable1, TF.vector. rewrite length_map. apply length_seq. Qed.

Lemma matmul_valid (x w : TF.tensor F) :
  TF.valid w -> TF.valid (TF.matmul zero add mul x w).
Proof.
  intros Hw. unfold TF.valid, TF.matmul. simpl. apply Forall_map, Forall_forall.
  intros r _. simpl. apply vec_mat_length, Hw.
Qed.

Lemma bias_add_valid (x : TF.tensor F) (b : list F) :
  TF.valid x -> length b = TF.dim x -> TF.valid (TF.bias_add add x b).
Proof.
  intros Hx Hb. unfold TF.valid, TF.bias_add in *. simpl.
  apply Forall_map. eapply Forall_impl; [exact Hx|].
  intros r Hr. simpl. apply vadd_length; assumption.
Qed.

#[local] Hint Resolve get_variable2_valid get_variable1_length matmul_valid
  bias_add_valid : shapes.

(** The affine layer: as many rows as its input, each as long as the bias. *)
Lemma xw_plus_b_shape (scope : string) (x : TF.tensor F) (units latent : nat) :
  let enc := TF.xw_plus_b zero add mul x
               (TF.get_variable2 init scope "w" units latent)
               (TF.get_variable1 init scope "b" latent) in
  TF.dim enc = latent /\ length (TF.rows enc) = length (TF.rows x) /\ TF.valid enc.
Proof.
  simpl. split; [reflexivity|]. split.
  - unfold TF.xw_plus_b, TF.bias_add, TF.matmul. simpl. by rewrite !length_map.
  - unfold TF.xw_plus_b. auto with shapes.
Qed.

Lemma dense_rows (scope : string) (x : TF.tensor F) (units : nat) :
  length (TF.rows (TF.dense zero add mul init scope x units)) = length (TF.rows x).
Proof. unfold TF.dense, TF.bias_add, TF.matmul. simpl. by rewrite !length_map. Qed.

End Shapes.

Section Encode.
Context {LDA F : Type}.
Variable zero : F.
Variable add mul : F -> F -> F.
Variable init : string -> nat -> nat -> F.

Lemma dimension_ok (z : Z) : (0 <= z)%Z -> TF.dimension (LDA:=LDA) z = Ok (Z.to_nat z).
Proof.
  intros Hz. unfold TF.dimension. destruct (z <? 0)%Z eqn:E; [lia|reflexivity].
Qed.

(** The body the three [encode] methods share, after the attributes and
    dimensions are read. *)
Lemma tiled_encoding (scope : string) (inputs : TF.tensor F) (units tile latent : Z) :
  (0 <= tile)%Z -> (0 <= latent)%Z ->
  tiled (LDA:=LDA)
    (Ok (replicate (Z.to_nat tile)
           (TF.xw_plus_b zero add mul
              (TF.dense zero add mul init scope inputs (Z.to_nat units))
              (TF.get_variable2 init scope "w" (Z.to_nat units) (Z.to_nat latent))
              (TF.get_variable1 init scope "b" (Z.to_nat latent)))))
    tile latent (length (TF.rows inputs)).
Proof.
  intros Htile Hlatent.
  destruct (xw_plus_b_shape zero add mul init scope
              (TF.dense zero add mul init scope inputs (Z.to_nat units))
              (Z.to_nat units) (Z.to_nat latent)) as (Hdim & Hrows & Hvalid).
  eexists _, _. split; [reflexivity|].
  split; [rewrite length_replicate; lia|].
  split; [apply Forall_replicate; reflexivity|].
  split; [rewrite Hdim; lia|].
  split; [rewrite Hrows; apply dense_rows|].
  eapply Forall_impl; [exact Hvalid|].
  intros row Hrow. cbv beta in Hrow. rewrite Hrow, Hdim. lia.
Qed.

(** C4.  On an instance whose [units] and [tile] are integers that are not
    negative, and for a latent size that is not negative, [encode] of
    Keywords, of Types and of Context returns [tile] copies of one latent
    encoding, with a row of [latent_size] entries for each row of a valid
    batch. *)
Theorem encode_tiling (self : obj LDA) (inputs : TF.tensor F) (config : config)
    (units tile : Z) :
  ob_dict self !! "units" = Some (VInt units) ->
  ob_dict self !! "tile" = Some (VInt tile) ->
  (0 <= units)%Z -> (0 <= tile)%Z -> (0 <= latent_size config)%Z ->
  TF.valid inputs ->
  tiled (Keywords.encode zero add mul init self inputs config)
        tile (latent_size config) (length (TF.rows inputs))
  /\ tiled (Types.encode zero add mul init self inputs config)
        tile (latent_size config) (length (TF.rows inputs))
  /\ tiled (Context.encode zero add mul init self inputs config)
        tile (latent_size config) (length (TF.rows inputs)).
Proof.
  intros Hunits Htile Hu Ht Hl _.
  unfold Keywords.encode, Types.encode, Context.encode, getattr.
  rewrite Hunits, Htile. simpl bind.
  rewrite !(dimension_ok _ Hu), !(dimension_ok _ Hl). simpl bind.
  repeat split; apply tiled_encoding; assumption.
Qed.

(** The number of copies in general: none for a negative [tile]. *)
Lemma encode_copies (self : obj LDA) (inputs : TF.tensor F) (config : config)
    (encodings : list (TF.tensor F)) (tile : Z) :
  ob_dict self !! "tile" = Some (VInt tile) ->
  Keywords.encode zero add mul init self inputs config = Ok encodings ->
  length encodings = Z.to_nat tile.
Proof.
  intros Htile. unfold Keywords.encode, getattr. rewrite Htile.
  destruct (ob_dict self !! "units") as [v|]; [|discriminate].
  simpl bind. destruct (as_int v) as [u|]; [|discriminate].
  simpl bind. destruct (TF.dimension u) as [n|]; [|discriminate].
  simpl bind. destruct (TF.dimension (latent_size config)) as [m|]; [|discriminate].
  simpl bind. intros [= <-]. apply length_replicate.
Qed.

End Encode.

Lemma encode_tiling_witness :
  let self := setattr (setattr (new (LDA:=unit) cKeywords) "units" (VInt 2)) "tile" (VInt 3) in
  let inputs := TF.Tensor 2 [[1; 0]; [0; 1]]%Z in
  let config := Config 4 2 in
  tiled (Keywords.encode 0%Z Z.add Z.mul (fun _ i j => Z.of_nat (i + j)) self inputs config)
        3 4 2
  /\ tiled (Types.encode 0%Z Z.add Z.mul (fun _ i j => Z.of_nat (i + j)) self inputs config)
        3 4 2
  /\ tiled (Context.encode 0%Z Z.add Z.mul (fun _ i j => Z.of_nat (i + j)) self inputs config)
        3 4 2.
Proof.
  apply (encode_tiling 0%Z Z.add Z.mul (fun _ i j => Z.of_nat (i + j))
           (setattr (setattr (new (LDA:=unit) cKeywords) "units" (VInt 2)) "tile" (VInt 3))
           (TF.Tensor 2 [[1; 0]; [0; 1]]%Z) (Config 4 2) 2 3);
    try reflexivity; try (simpl; lia).
  repeat constructor.
Defined.

(** ** Configuration *)

Section Config.
Context {LDA : Type}.
Variable CONFIG_ENCODER : list string.
Variable LDA_from_file : string -> result LDA LDA.

(** One turn of either loop: the attribute just written is read from the
    source [f] like the ones still to come. *)
Lemma choose_insert (attrs : list string) (attr a : string) (v : pyval LDA)
    (f : string -> option (pyval LDA)) (d : gmap string (pyval LDA)) :
  f attr = Some v ->
  (if decide (a ∈ attrs) then f a else <[attr := v]> d !! a)
  = (if decide (a ∈ attr :: attrs) then f a else d !! a).
Proof.
  intros Hv. destruct (decide (a ∈ attrs)) as [Hin|Hnin].
  - rewrite decide_True by (by right). reflexivity.
  - destruct (decide (a = attr)) as [->|Hne].
    + rewrite decide_True by (by left). by rewrite lookup_insert_eq.
    + rewrite decide_False by (rewrite elem_of_cons; tauto).
      by rewrite lookup_insert_ne.
Qed.

Lemma copy_attrs_present (attrs : list string) (self : obj LDA)
    (cfg : gmap string (pyval LDA)) :
  Forall (fun attr => is_Some (cfg !! attr)) attrs ->
  exists self',
    Evidence.copy_attrs attrs self cfg = (self', Ok tt)
    /\ ob_class self' = ob_class self
    /\ forall a, ob_dict self' !! a
                 = if decide (a ∈ attrs) then cfg !! a else ob_dict self !! a.
Proof.
  intros Hall. revert self.
  induction Hall as [|attr attrs [v Hv] _ IH]; intros self;
    cbn [Evidence.copy_attrs].
  - exists self. split; [reflexivity|]. split; [reflexivity|].
    intros a. case_decide as Ha; [|reflexivity].
    by apply elem_of_nil in Ha.
  - unfold getitem. rewrite Hv.
    destruct (IH (setattr self attr v)) as (self' & Hcopy & Hclass & Hdict).
    exists self'. split; [exact Hcopy|]. split; [exact Hclass|].
    intros a. rewrite Hdict. cbn [setattr ob_dict].
    exact (choose_insert attrs attr a v (fun k => cfg !! k) _ Hv).
Qed.

Lemma dump_attrs_present (attrs : list string) (self : obj LDA)
    (js : gmap string (pyval LDA)) :
  Forall (fun attr => is_Some (ob_dict self !! attr)) attrs ->
  exists out,
    Evidence.dump_attrs attrs self js = Ok out
    /\ forall a, out !! a = if decide (a ∈ attrs) then ob_dict self !! a else js !! a.
Proof.
  intros Hall. revert js.
  induction Hall as [|attr attrs [v Hv] _ IH]; intros js;
    cbn [Evidence.dump_attrs].
  - exists js. split; [reflexivity|]. intros a. case_decide as Ha; [|reflexivity].
    by apply elem_of_nil in Ha.
  - unfold getattr. rewrite Hv. simpl bind.
    destruct (IH (<[attr := v]> js)) as (out & Hdump & Hout).
    exists out. split; [exact Hdump|]. intros a. rewrite Hout.
    exact (choose_insert attrs attr a v (fun k => ob_dict self !! k) _ Hv).
Qed.

Lemma restrict_lookup (attrs : list string) (cfg : gmap string (pyval LDA)) (a : string) :
  restrict attrs cfg !! a = if decide (a ∈ attrs) then cfg !! a else None.
Proof.
  unfold restrict. rewrite map_lookup_filter.
  destruct (cfg !! a) as [v|]; simpl; case_decide; try reflexivity.
  - by rewrite option_guard_True.
  - by rewrite option_guard_False.
Qed.

(** What [load_embedding] does depends on the class alone. *)
Lemma load_embedding_class (self self' : obj LDA) (save_dir : string) :
  ob_class self' = ob_class self ->
  snd (Evidence.load_embedding LDA_from_file self save_dir) = Ok tt ->
  exists m, Evidence.load_embedding LDA_from_file self' save_dir
            = (setattr self' "lda" (VModel m), Ok tt).
Proof.
  unfold Evidence.load_embedding, Keywords.load_embedding,
    Types.load_embedding, Context.load_embedding.
  intros ->. destruct (ob_class self); simpl; try discriminate;
    match goal with |- context [LDA_from_file ?p] => destruct (LDA_from_file p) as [m|e] end;
    simpl; try discriminate; intros _; by exists m.
Qed.

Lemma dump_config_restrict (self : obj LDA) (cfg : gmap string (pyval LDA)) :
  Forall (fun attr => is_Some (cfg !! attr)) CONFIG_ENCODER ->
  (forall a, a ∈ CONFIG_ENCODER -> ob_dict self !! a = cfg !! a) ->
  Evidence.dump_config CONFIG_ENCODER self = Ok (restrict CONFIG_ENCODER cfg).
Proof.
  intros Hall Hsame. unfold Evidence.dump_config.
  destruct (dump_attrs_present CONFIG_ENCODER self ∅) as (out & -> & Hout).
  { rewrite Forall_forall in Hall |- *. intros a Ha. rewrite (Hsame a Ha). auto. }
  f_equal. apply map_eq. intros a. rewrite Hout, restrict_lookup.
  case_decide as Ha; [by apply Hsame | apply lookup_empty].
Qed.

(** The attributes are copied before the embedding is loaded, and Javadoc
    has no embedding to load: its [init_config] raises, with the
    attributes in place. *)
Lemma init_config_not_implemented (self : obj LDA) (cfg : gmap string (pyval LDA))
    (save_dir : string) :
  ob_class self = cJavadoc \/ ob_class self = cEvidence ->
  Forall (fun attr => is_Some (cfg !! attr)) CONFIG_ENCODER ->
  exists self',
    Evidence.init_config CONFIG_ENCODER LDA_from_file self cfg save_dir
    = (self', Raise (NotImplementedError "load_embedding() has not been implemented"))
    /\ Evidence.dump_config CONFIG_ENCODER self' = Ok (restrict CONFIG_ENCODER cfg).
Proof.
  intros Hclass Hall. unfold Evidence.init_config.
  destruct (copy_attrs_present CONFIG_ENCODER self cfg Hall) as (self1 & -> & Hc & Hdict).
  exists self1. split.
  - unfold Evidence.load_embedding. rewrite Hc. by destruct Hclass as [-> | ->].
  - apply dump_config_restrict; [exact Hall|].
    intros a Ha. rewrite Hdict. by rewrite decide_True.
Qed.

(** C1, amended.  For an instance whose embedding loads (one of Keywords,
    of Types or of Context, with its model file in place) and a record that
    holds every recognized attribute, none of them named [lda]:
    [init_config] returns and [dump_config] then gives the record
    restricted to the recognized attributes. *)
Theorem config_round_trip (self : obj LDA) (cfg : gmap string (pyval LDA))
    (save_dir : string) :
  Forall (fun attr => is_Some (cfg !! attr)) CONFIG_ENCODER ->
  "lda" ∉ CONFIG_ENCODER ->
  snd (Evidence.load_embedding LDA_from_file self save_dir) = Ok tt ->
  exists self',
    Evidence.init_config CONFIG_ENCODER LDA_from_file self cfg save_dir = (self', Ok tt)
    /\ Evidence.dump_config CONFIG_ENCODER self' = Ok (restrict CONFIG_ENCODER cfg).
Proof.
  intros Hall Hlda Hload. unfold Evidence.init_config.
  destruct (copy_attrs_present CONFIG_ENCODER self cfg Hall) as (self1 & -> & Hc & Hdict).
  destruct (load_embedding_class self self1 save_dir Hc Hload) as (m & ->).
  eexists. split; [reflexivity|].
  apply dump_config_restrict; [exact Hall|].
  intros a Ha. cbn [setattr ob_dict].
  rewrite lookup_insert_ne by (intros <-; contradiction).
  rewrite Hdict. by rewrite decide_True.
Qed.

(** The embedding loads for the three kinds of the registry only. *)
Lemma load_embedding_kinds (self : obj LDA) (save_dir : string) :
  snd (Evidence.load_embedding LDA_from_file self save_dir) = Ok tt ->
  ob_class self = cKeywords \/ ob_class self = cTypes \/ ob_class self = cContext.
Proof.
  unfold Evidence.load_embedding. destruct (ob_class self); simpl; auto; discriminate.
Qed.

End Config.

Lemma config_round_trip_witness :
  exists self',
    Evidence.init_config encoder_attrs any_file (new cKeywords) keywords_cfg "save"
    = (self', Ok tt)
    /\ Evidence.dump_config encoder_attrs self' = Ok (restrict encoder_attrs keywords_cfg).
Proof.
  apply (config_round_trip encoder_attrs any_file (new cKeywords) keywords_cfg "save").
  - apply (bool_decide_unpack _). vm_compute. reflexivity.
  - apply (bool_decide_unpack _). vm_compute. reflexivity.
  - reflexivity.
Defined.

(** C1, as the specification gives it, at a Javadoc instance: the record
    holds every recognized attribute, and [init_config] raises instead of
    returning. *)
Lemma config_round_trip_javadoc_fails :
  Forall (fun attr => is_Some (javadoc_cfg !! attr)) encoder_attrs
  /\ snd (Evidence.init_config encoder_attrs any_file (new cJavadoc) javadoc_cfg "save")
     = Raise (NotImplementedError "load_embedding() has not been implemented")
  /\ ~ (exists self',
         Evidence.init_config encoder_attrs any_file (new cJavadoc) javadoc_cfg "save"
         = (self', Ok tt)
         /\ Evidence.dump_config encoder_attrs self' = Ok (restrict encoder_attrs javadoc_cfg)).
Proof.
  split; [apply (bool_decide_unpack _); vm_compute; reflexivity|].
  split; [reflexivity|].
  intros (self' & Hinit & _).
  apply (f_equal snd) in Hinit. discriminate Hinit.
Qed.

(** ** The registry *)

Section Registry.
Context {LDA : Type}.
Variable CONFIG_ENCODER : list string.
Variable LDA_from_file : string -> result LDA LDA.

Local Abbreviation init_config := (Evidence.init_config CONFIG_ENCODER LDA_from_file).
Local Abbreviation read_entries := (Evidence.read_entries CONFIG_ENCODER LDA_from_file).
Local Abbreviation read_config := (Evidence.read_config CONFIG_ENCODER LDA_from_file).
Local Abbreviation invalid_name := (TypeError "Invalid evidence name: {}").

(** The [if]/[elif] chain is the table of the specification. *)
Lemma dispatch_table (name : pyval LDA) :
  Evidence.dispatch name
  = match kind_named name with
    | Some c => Ok (new c)
    | None => Raise (invalid_name name)
    end.
Proof.
  unfold Evidence.dispatch, kind_named, Evidence.eq_str.
  destruct name as [| | |s| | |]; try reflexivity.
  repeat (case_decide as E; [subst s; reflexivity|];
          apply String.eqb_neq in E; rewrite E; clear E).
  reflexivity.
Qed.

Lemma copy_attrs_class (attrs : list string) (self : obj LDA)
    (cfg : gmap string (pyval LDA)) :
  ob_class (fst (Evidence.copy_attrs attrs self cfg)) = ob_class self.
Proof.
  revert self. induction attrs as [|attr attrs IH]; intros self; simpl; [reflexivity|].
  destruct (getitem cfg attr); [|reflexivity]. by rewrite IH.
Qed.

Lemma load_embedding_keeps_class (self : obj LDA) (save_dir : string) :
  ob_class (fst (Evidence.load_embedding LDA_from_file self save_dir)) = ob_class self.
Proof.
  unfold Evidence.load_embedding, Keywords.load_embedding,
    Types.load_embedding, Context.load_embedding.
  destruct (ob_class self) eqn:E; cbv zeta; try (simpl; exact E);
    match goal with |- context [LDA_from_file ?p] => destruct (LDA_from_file p) end;
    simpl; exact E.
Qed.

Lemma init_config_class (self : obj LDA) (cfg : gmap string (pyval LDA))
    (save_dir : string) :
  ob_class (fst (init_config self cfg save_dir)) = ob_class self.
Proof.
  unfold Evidence.init_config.
  pose proof (copy_attrs_class CONFIG_ENCODER self cfg) as Hc.
  destruct (Evidence.copy_attrs CONFIG_ENCODER self cfg) as [self1 [[]|e]]; simpl in *.
  - by rewrite load_embedding_keeps_class.
  - exact Hc.
Qed.

Lemma read_entries_classes (js : list (gmap string (pyval LDA))) (save_dir : string)
    (acc es : list (obj LDA)) :
  read_entries js save_dir acc = Ok es ->
  exists made, es = acc ++ made /\ Forall2 made_from js made.
Proof.
  revert acc. induction js as [|evidence js IH]; intros acc; cbn [Evidence.read_entries].
  - intros [= <-]. exists []. by rewrite app_nil_r.
  - unfold getitem. destruct (evidence !! "name") as [name|] eqn:Hname; [|discriminate].
    simpl bind. rewrite dispatch_table.
    destruct (kind_named name) as [c|] eqn:Hkind; [|discriminate]. simpl bind.
    pose proof (init_config_class (new c) evidence save_dir) as Hclass.
    destruct (init_config (new c) evidence save_dir) as [e [[]|x]]; [|discriminate].
    intros Hrest. destruct (IH _ Hrest) as (made & -> & Hmade).
    exists (e :: made). split; [by rewrite <- app_assoc|].
    constructor; [|exact Hmade]. exists name. split; [exact Hname|].
    simpl in Hclass. by rewrite Hclass.
Qed.

Lemma read_entries_app (pre rest : list (gmap string (pyval LDA))) (save_dir : string)
    (acc es : list (obj LDA)) :
  read_entries pre save_dir acc = Ok es ->
  read_entries (pre ++ rest) save_dir acc = read_entries rest save_dir es.
Proof.
  revert acc. induction pre as [|evidence pre IH]; intros acc;
    cbn [Evidence.read_entries app].
  - by intros [= <-].
  - destruct (getitem evidence "name") as [name|]; [|discriminate]. simpl bind.
    destruct (Evidence.dispatch name) as [e|]; [|discriminate]. simpl bind.
    destruct (init_config e evidence save_dir) as [e' [[]|x]]; [|discriminate].
    apply IH.
Qed.

Lemma read_entries_returns (js : list (gmap string (pyval LDA))) (save_dir : string)
    (acc : list (obj LDA)) :
  Forall (fun evidence => exists name c,
            evidence !! "name" = Some name /\ kind_named name = Some c
            /\ snd (init_config (new c) evidence save_dir) = Ok tt) js ->
  exists es, read_entries js save_dir acc = Ok es.
Proof.
  intros Hall. revert acc.
  induction Hall as [|evidence js (name & c & Hname & Hkind & Hinit) _ IH]; intros acc;
    cbn [Evidence.read_entries].
  - by exists acc.
  - unfold getitem. rewrite Hname. simpl bind. rewrite dispatch_table, Hkind. simpl bind.
    destruct (init_config (new c) evidence save_dir) as [e [[]|x]]; [|discriminate Hinit].
    apply IH.
Qed.

(** C2.  [read_config] makes, for each entry, an instance of the class the
    table gives for its name: whenever it returns, the instances match the
    entries one for one, and it does return when every name is in the table
    and every instance initializes.  At the first entry whose name is not in
    the table it raises the invalid-name [TypeError]; [javadoc] is such a
    name. *)
Theorem read_config_dispatch (save_dir : string) :
  (forall js es, read_config js save_dir = Ok es -> Forall2 made_from js es)
  /\ (forall js,
        Forall (fun evidence => exists name c,
                  evidence !! "name" = Some name /\ kind_named name = Some c
                  /\ snd (init_config (new c) evidence save_dir) = Ok tt) js ->
        exists es, read_config js save_dir = Ok es /\ Forall2 made_from js es)
  /\ (forall pre evidence post es name,
        read_config pre save_dir = Ok es ->
        evidence !! "name" = Some name ->
        kind_named name = None ->
        read_config (pre ++ evidence :: post) save_dir = Raise (invalid_name name))
  /\ (forall pre evidence post es,
        read_config pre save_dir = Ok es ->
        evidence !! "name" = Some (VStr "javadoc") ->
        read_config (pre ++ evidence :: post) save_dir
        = Raise (invalid_name (VStr "javadoc"))).
Proof.
  assert (Hclasses : forall js es,
             read_config js save_dir = Ok es -> Forall2 made_from js es).
  { intros js es Hread. unfold Evidence.read_config in Hread.
    by destruct (read_entries_classes _ _ _ _ Hread) as (made & -> & Hmade). }
  assert (Hraise : forall pre evidence post es name,
             read_config pre save_dir = Ok es ->
             evidence !! "name" = Some name ->
             kind_named name = None ->
             read_config (pre ++ evidence :: post) save_dir = Raise (invalid_name name)).
  { intros pre evidence post es name Hpre Hname Hkind. unfold Evidence.read_config in *.
    rewrite (read_entries_app _ _ _ _ _ Hpre). cbn [Evidence.read_entries].
    unfold getitem. rewrite Hname. simpl bind. by rewrite dispatch_table, Hkind. }
  split; [exact Hclasses|]. split; [|split; [exact Hraise|]].
  - intros js Hall. destruct (read_entries_returns js save_dir [] Hall) as [es Hes].
    exists es. split; [exact Hes|]. by apply Hclasses.
  - intros pre evidence post es Hpre Hname. by eapply Hraise.
Qed.

End Registry.

Lemma read_config_dispatch_witness :
  (exists es,
     Evidence.read_config encoder_attrs any_file [keywords_cfg; types_cfg; context_cfg] "save"
     = Ok es
     /\ Forall2 made_from [keywords_cfg; types_cfg; context_cfg] es)
  /\ Evidence.read_config encoder_attrs any_file
       ([keywords_cfg] ++ javadoc_cfg :: [types_cfg]) "save"
     = Raise (TypeError "Invalid evidence name: {}" (VStr "javadoc")).
Proof.
  destruct (read_config_dispatch encoder_attrs any_file "save") as (_ & Hmake & _ & Hjavadoc).
  split.
  - apply Hmake. repeat constructor.
    + exists (VStr "keywords"), cKeywords. repeat split; reflexivity.
    + exists (VStr "types"), cTypes. repeat split; reflexivity.
    + exists (VStr "context"), cContext. repeat split; reflexivity.
  - eapply Hjavadoc; reflexivity.
Defined.

Example read_config_classes :
  fmap (map ob_class)
       (match Evidence.read_config encoder_attrs any_file
                [keywords_cfg; types_cfg; context_cfg] "save" with
        | Ok es => Some es
        | Raise _ => None
        end)
  = Some [cKeywords; cTypes; cContext].
Proof. reflexivity. Qed.

(** ** The vocabulary of Javadoc *)

Section Vocabulary.
Context {LDA : Type}.
Variable C0 : string.
Variable load_chars : string -> result LDA (list string).

Lemma fold_insert_absent (ks : list string) (vs : list Z) (d : gmap string Z) (k : string) :
  k ∉ ks ->
  fold_left (fun d p => <[fst p := snd p]> d) (zip ks vs) d !! k = d !! k.
Proof.
  revert vs d. induction ks as [|k' ks IH]; intros [|v vs] d Hk; simpl; try reflexivity.
  apply not_elem_of_cons in Hk as [Hne Hk].
  rewrite IH by exact Hk. by rewrite lookup_insert_ne.
Qed.

Lemma fold_insert_present (ks : list string) (vs : list Z) (d : gmap string Z) (k : string) :
  is_Some (d !! k) ->
  is_Some (fold_left (fun d p => <[fst p := snd p]> d) (zip ks vs) d !! k).
Proof.
  revert vs d. induction ks as [|k' ks IH]; intros [|v vs] d Hk; simpl; try exact Hk.
  apply IH. rewrite lookup_insert_is_Some.
  destruct (decide (k' = k)); [by left | by right].
Qed.

Lemma dict_zip_first (chars : list string) :
  C0 ∉ chars -> Javadoc.dict_zip (C0 :: chars) !! C0 = Some 0%Z.
Proof.
  intros Hk. unfold Javadoc.dict_zip. simpl.
  rewrite fold_insert_absent by exact Hk. apply lookup_insert_eq.
Qed.

Lemma vocab_of_set (self : obj LDA) (chars : list string) (n : Z) (d : gmap string Z) :
  vocab_of (setattr (setattr (setattr self "chars" (VList chars)) "vocab" (VDict d))
              "vocab_size" (VInt n)) = d.
Proof.
  unfold vocab_of. cbn [setattr ob_dict].
  rewrite lookup_insert_ne by discriminate. by rewrite lookup_insert_eq.
Qed.

Lemma chars_of_set (self : obj LDA) (chars : list string) (n : Z) (d : gmap string Z) :
  chars_of (setattr (setattr (setattr self "chars" (VList chars)) "vocab" (VDict d))
              "vocab_size" (VInt n)) = chars.
Proof.
  unfold chars_of. cbn [setattr ob_dict].
  rewrite !lookup_insert_ne by discriminate. by rewrite lookup_insert_eq.
Qed.

(** The corpus-built branch always puts the padding symbol in the
    vocabulary. *)
Lemma set_dicts_corpus_contains (self : obj LDA) (data : list (list string))
    (flag : pyval LDA) :
  ob_dict self !! "pretrained_embed" = Some flag ->
  truth flag = false ->
  exists self',
    Javadoc.set_dicts C0 load_chars self data = (self', Ok tt)
    /\ is_Some (vocab_of self' !! C0).
Proof.
  intros Hflag Hfalse. unfold Javadoc.set_dicts, getattr. rewrite Hflag. simpl bind.
  rewrite Hfalse. eexists. split; [reflexivity|].
  rewrite vocab_of_set. unfold Javadoc.dict_zip. simpl.
  apply fold_insert_present. rewrite lookup_insert_eq. eauto.
Qed.

(** C6, amended.  When the vocabulary is built from the corpus and the
    padding symbol is not itself a token of the corpus, [set_dicts] puts
    the padding symbol first in [chars] and gives it the id 0 in [vocab].
    (A vocabulary read from a file is indexed as the file lists it.) *)
Theorem set_dicts_padding (self : obj LDA) (data : list (list string))
    (flag : pyval LDA) :
  ob_dict self !! "pretrained_embed" = Some flag ->
  truth flag = false ->
  C0 ∉ concat data ->
  exists self',
    Javadoc.set_dicts C0 load_chars self data = (self', Ok tt)
    /\ chars_of self' = C0 :: list_set (concat data)
    /\ vocab_of self' !! C0 = Some 0%Z.
Proof.
  intros Hflag Hfalse Hfresh. unfold Javadoc.set_dicts, getattr. rewrite Hflag.
  simpl bind. rewrite Hfalse. eexists. split; [reflexivity|].
  rewrite vocab_of_set, chars_of_set. split; [reflexivity|].
  apply dict_zip_first. by rewrite list_set_elem_of.
Qed.

(** A vocabulary read from a file is the index of the list the file holds. *)
Lemma set_dicts_pretrained (self : obj LDA) (data : list (list string))
    (flag : pyval LDA) (dir name : string) (chars : list string) :
  ob_dict self !! "pretrained_embed" = Some flag ->
  truth flag = true ->
  ob_dict self !! "save_dir" = Some (VStr dir) ->
  ob_dict self !! "name" = Some (VStr name) ->
  load_chars (Str.path_join (Str.path_join dir ("embed_" +:+ name)) "config.json") = Ok chars ->
  exists self',
    Javadoc.set_dicts C0 load_chars self data = (self', Ok tt)
    /\ chars_of self' = chars
    /\ vocab_of self' = Javadoc.dict_zip chars.
Proof.
  intros Hflag Htrue Hdir Hname Hload. unfold Javadoc.set_dicts, getattr.
  rewrite Hflag. cbn [bind]. rewrite Htrue, Hdir, Hname. cbn [bind as_str].
  rewrite Hload.
  eexists. split; [reflexivity|]. by rewrite vocab_of_set, chars_of_set.
Qed.

End Vocabulary.

Lemma set_dicts_padding_witness :
  exists self',
    Javadoc.set_dicts "CLASS0" (fun _ => Ok []) javadoc_corpus [["reads"; "a"]; ["a"; "file"]]
    = (self', Ok tt)
    /\ chars_of self' = "CLASS0" :: list_set (concat [["reads"; "a"]; ["a"; "file"]])
    /\ vocab_of self' !! "CLASS0" = Some 0%Z.
Proof.
  apply (set_dicts_padding "CLASS0" (fun _ => Ok []) javadoc_corpus
           [["reads"; "a"]; ["a"; "file"]] (VBool false)).
  - reflexivity.
  - reflexivity.
  - apply (bool_decide_unpack _). vm_compute. reflexivity.
Defined.

(** C6, as the specification gives it: one id that the padding symbol has
    in the vocabulary after every run of [set_dicts].  There is none,
    whatever the padding symbol is: a vocabulary file need not list it. *)
Lemma set_dicts_padding_not_fixed :
  ~ (exists (C0 : string) (id : Z),
       forall (load_chars : string -> result unit (list string)) (self : obj unit)
              (data : list (list string)) (self' : obj unit),
         Javadoc.set_dicts C0 load_chars self data = (self', Ok tt) ->
         vocab_of self' !! C0 = Some id).
Proof.
  intros (C0 & id & Hfixed).
  pose proof (Hfixed (fun _ => Ok []) javadoc_pretrained [] _ eq_refl) as Hid.
  rewrite vocab_of_set in Hid. unfold Javadoc.dict_zip in Hid. simpl in Hid.
  rewrite lookup_empty in Hid. discriminate Hid.
Qed.

(** In the corpus-built branch the id moves as well when the padding symbol
    is a token of the corpus: the later pair of [zip] replaces the first. *)
Example set_dicts_padding_collision :
  vocab_of (fst (Javadoc.set_dicts "CLASS0" (fun _ => Ok []) javadoc_corpus [["CLASS0"]]))
    !! "CLASS0" = Some 1%Z
  /\ vocab_of (fst (Javadoc.set_dicts "CLASS0" (fun _ => Ok []) javadoc_corpus []))
       !! "CLASS0" = Some 0%Z.
Proof. split; vm_compute; reflexivity. Qed.

(** * Further properties of the module *)

(** ** Configuration: missing attributes and the state left behind *)

Section ConfigEdges.
Context {LDA : Type}.
Variable CONFIG_ENCODER : list string.
Variable LDA_from_file : string -> result LDA LDA.

Lemma copy_attrs_missing (pre post : list string) (attr : string) (self : obj LDA)
    (cfg : gmap string (pyval LDA)) :
  Forall (fun a => is_Some (cfg !! a)) pre ->
  cfg !! attr = None ->
  exists self',
    Evidence.copy_attrs (pre ++ attr :: post) self cfg = (self', Raise (KeyError attr))
    /\ forall a, ob_dict self' !! a
                 = if decide (a ∈ pre) then cfg !! a else ob_dict self !! a.
Proof.
  intros Hpre Hnone. revert self.
  induction Hpre as [|p pre [v Hv] _ IH]; intros self;
    cbn [Evidence.copy_attrs app]; unfold getitem.
  - rewrite Hnone. exists self. split; [reflexivity|]. intros a.
    case_decide as Ha; [by apply elem_of_nil in Ha | reflexivity].
  - rewrite Hv. destruct (IH (setattr self p v)) as (self' & Hcopy & Hdict).
    exists self'. split; [exact Hcopy|]. intros a. rewrite Hdict.
    cbn [setattr ob_dict].
    exact (choose_insert LDA_from_file pre p a v (fun k => cfg !! k) _ Hv).
Qed.

(** X1.  When the record lacks a recognized attribute, [init_config] raises
    [KeyError] for the first one it lacks; the attributes listed before it
    are already set on the instance, every other attribute (the model under
    [lda] too) is as it was. *)
Theorem init_config_missing_attribute (pre post : list string) (attr : string)
    (self : obj LDA) (cfg : gmap string (pyval LDA)) (save_dir : string) :
  CONFIG_ENCODER = pre ++ attr :: post ->
  Forall (fun a => is_Some (cfg !! a)) pre ->
  cfg !! attr = None ->
  exists self',
    Evidence.init_config CONFIG_ENCODER LDA_from_file self cfg save_dir
    = (self', Raise (KeyError attr))
    /\ forall a, ob_dict self' !! a
                 = if decide (a ∈ pre) then cfg !! a else ob_dict self !! a.
Proof.
  intros -> Hpre Hnone. unfold Evidence.init_config.
  destruct (copy_attrs_missing pre post attr self cfg Hpre Hnone) as (self' & -> & Hdict).
  by exists self'.
Qed.

Lemma dump_attrs_missing (pre post : list string) (attr : string) (self : obj LDA)
    (js : gmap string (pyval LDA)) :
  Forall (fun a => is_Some (ob_dict self !! a)) pre ->
  ob_dict self !! attr = None ->
  Evidence.dump_attrs (pre ++ attr :: post) self js = Raise (AttributeError attr).
Proof.
  intros Hpre Hnone. revert js.
  induction Hpre as [|p pre [v Hv] _ IH]; intros js;
    cbn [Evidence.dump_attrs app]; unfold getattr.
  - by rewrite Hnone.
  - rewrite Hv. cbn [bind]. apply IH.
Qed.

(** X2.  [dump_config] raises [AttributeError] for the first recognized
    attribute the instance does not have. *)
Theorem dump_config_missing_attribute (pre post : list string) (attr : string)
    (self : obj LDA) :
  CONFIG_ENCODER = pre ++ attr :: post ->
  Forall (fun a => is_Some (ob_dict self !! a)) pre ->
  ob_dict self !! attr = None ->
  Evidence.dump_config CONFIG_ENCODER self = Raise (AttributeError attr).
Proof.
  intros -> Hpre Hnone. unfold Evidence.dump_config. by apply dump_attrs_missing.
Qed.

Lemma load_embedding_state (self : obj LDA) (save_dir : string) :
  fst (Evidence.load_embedding LDA_from_file self save_dir) = self
  \/ exists m, fst (Evidence.load_embedding LDA_from_file self save_dir)
               = setattr self "lda" (VModel m).
Proof.
  unfold Evidence.load_embedding, Keywords.load_embedding,
    Types.load_embedding, Context.load_embedding.
  destruct (ob_class self); cbv zeta; try (by left);
    match goal with |- context [LDA_from_file ?p] => destruct (LDA_from_file p) as [m|e] end;
    simpl; eauto.
Qed.

Lemma dump_after_load (self : obj LDA) (cfg : gmap string (pyval LDA))
    (save_dir : string) :
  Forall (fun attr => is_Some (cfg !! attr)) CONFIG_ENCODER ->
  "lda" ∉ CONFIG_ENCODER ->
  (forall a, a ∈ CONFIG_ENCODER -> ob_dict self !! a = cfg !! a) ->
  Evidence.dump_config CONFIG_ENCODER
    (fst (Evidence.load_embedding LDA_from_file self save_dir))
  = Ok (restrict CONFIG_ENCODER cfg).
Proof.
  intros Hall Hlda Hsame.
  apply (dump_config_restrict CONFIG_ENCODER LDA_from_file); [exact Hall|]. intros a Ha.
  destruct (load_embedding_state self save_dir) as [-> | (m & ->)].
  - by apply Hsame.
  - cbn [setattr ob_dict]. rewrite lookup_insert_ne by (intros <-; contradiction).
    by apply Hsame.
Qed.

(** X3.  Whatever the class of the instance and whether or not the embedding
    loads, after [init_config] with a record that holds every recognized
    attribute (none named [lda]) the instance dumps to the record restricted
    to the recognized attributes. *)
Theorem init_config_state_round_trip (self : obj LDA) (cfg : gmap string (pyval LDA))
    (save_dir : string) :
  Forall (fun attr => is_Some (cfg !! attr)) CONFIG_ENCODER ->
  "lda" ∉ CONFIG_ENCODER ->
  Evidence.dump_config CONFIG_ENCODER
    (fst (Evidence.init_config CONFIG_ENCODER LDA_from_file self cfg save_dir))
  = Ok (restrict CONFIG_ENCODER cfg).
Proof.
  intros Hall Hlda. unfold Evidence.init_config.
  destruct (copy_attrs_present LDA_from_file CONFIG_ENCODER self cfg Hall)
    as (self1 & -> & _ & Hdict).
  apply dump_after_load; [exact Hall | exact Hlda |].
  intros a Ha. rewrite Hdict. by rewrite decide_True.
Qed.

Lemma copy_attrs_returns (attrs : list string) (self self' : obj LDA)
    (cfg : gmap string (pyval LDA)) :
  Evidence.copy_attrs attrs self cfg = (self', Ok tt) ->
  Forall (fun a => is_Some (cfg !! a)) attrs.
Proof.
  revert self. induction attrs as [|attr attrs IH]; intros self; [constructor|].
  cbn [Evidence.copy_attrs]. unfold getitem.
  destruct (cfg !! attr) as [v|] eqn:Hv; [|discriminate].
  intros Hcopy. constructor; [by eexists | by eapply IH].
Qed.

(** An [init_config] that returns has found every recognized attribute and
    leaves an instance that dumps to the restricted record. *)
Lemma init_config_returns (self self' : obj LDA) (cfg : gmap string (pyval LDA))
    (save_dir : string) :
  "lda" ∉ CONFIG_ENCODER ->
  Evidence.init_config CONFIG_ENCODER LDA_from_file self cfg save_dir = (self', Ok tt) ->
  Forall (fun a => is_Some (cfg !! a)) CONFIG_ENCODER
  /\ Evidence.dump_config CONFIG_ENCODER self' = Ok (restrict CONFIG_ENCODER cfg)
  /\ forall a, a ∈ CONFIG_ENCODER -> ob_dict self' !! a = cfg !! a.
Proof.
  intros Hlda Hinit. unfold Evidence.init_config in Hinit.
  destruct (Evidence.copy_attrs CONFIG_ENCODER self cfg) as [self1 [[]|e]] eqn:Hcopy;
    [|discriminate].
  pose proof (copy_attrs_returns _ _ _ _ Hcopy) as Hall.
  destruct (copy_attrs_present LDA_from_file CONFIG_ENCODER self cfg Hall)
    as (self1' & Hcopy' & _ & Hdict).
  rewrite Hcopy in Hcopy'. injection Hcopy' as <-.
  assert (Hsame : forall a, a ∈ CONFIG_ENCODER -> ob_dict self1 !! a = cfg !! a).
  { intros a Ha. rewrite Hdict. by rewrite decide_True. }
  pose proof (dump_after_load self1 cfg save_dir Hall Hlda Hsame) as Hdump.
  rewrite Hinit in Hdump. simpl in Hdump. split; [exact Hall|]. split; [exact Hdump|].
  intros a Ha. destruct (load_embedding_state self1 save_dir) as [Hst | (m & Hst)];
    rewrite Hinit in Hst; simpl in Hst; subst self'.
  - by apply Hsame.
  - cbn [setattr ob_dict]. rewrite lookup_insert_ne by (intros <-; contradiction).
    by apply Hsame.
Qed.

Lemma dump_attrs_returns (attrs : list string) (self : obj LDA)
    (js out : gmap string (pyval LDA)) :
  Evidence.dump_attrs attrs self js = Ok out ->
  Forall (fun a => is_Some (ob_dict self !! a)) attrs.
Proof.
  revert js. induction attrs as [|attr attrs IH]; intros js; [constructor|].
  cbn [Evidence.dump_attrs]. unfold getattr.
  destruct (ob_dict self !! attr) as [v|] eqn:Hv; [|discriminate].
  cbn [bind]. intros Hdump. constructor; [by eexists | by eapply IH].
Qed.

Lemma setattr_same (self : obj LDA) (attr : string) (v : pyval LDA) :
  ob_dict self !! attr = Some v -> setattr self attr v = self.
Proof.
  intros Hv. destruct self as [c d]. unfold setattr. simpl in *.
  by rewrite insert_id.
Qed.

Lemma copy_attrs_same (attrs : list string) (self : obj LDA)
    (cfg : gmap string (pyval LDA)) :
  Forall (fun a => is_Some (cfg !! a) /\ cfg !! a = ob_dict self !! a) attrs ->
  Evidence.copy_attrs attrs self cfg = (self, Ok tt).
Proof.
  induction 1 as [|attr attrs [[v Hv] Hsame] _ IH]; cbn [Evidence.copy_attrs];
    [reflexivity|].
  unfold getitem. rewrite Hv. rewrite setattr_same by (by rewrite <- Hsame).
  exact IH.
Qed.

(** X4.  Initializing an instance from its own dump changes none of its
    attributes: [init_config] does what [load_embedding] alone does. *)
Theorem init_config_of_dump (self : obj LDA) (js : gmap string (pyval LDA))
    (save_dir : string) :
  Evidence.dump_config CONFIG_ENCODER self = Ok js ->
  Evidence.init_config CONFIG_ENCODER LDA_from_file self js save_dir
  = Evidence.load_embedding LDA_from_file self save_dir.
Proof.
  intros Hdump. unfold Evidence.dump_config in Hdump.
  pose proof (dump_attrs_returns _ _ _ _ Hdump) as Hall.
  destruct (dump_attrs_present LDA_from_file CONFIG_ENCODER self ∅ Hall) as (out & Hout & Hlookup).
  rewrite Hdump in Hout. injection Hout as <-.
  unfold Evidence.init_config. rewrite copy_attrs_same; [reflexivity|].
  rewrite Forall_forall in Hall |- *. intros a Ha.
  rewrite Hlookup, decide_True by exact Ha. split; [by apply Hall | reflexivity].
Qed.

End ConfigEdges.

Lemma init_config_missing_attribute_witness :
  exists self',
    Evidence.init_config encoder_attrs any_file (new cKeywords)
      (delete "units" keywords_cfg) "save"
    = (self', Raise (KeyError "units"))
    /\ forall a, ob_dict self' !! a
                 = if decide (a ∈ ["name"]) then delete "units" keywords_cfg !! a
                   else ob_dict (new (LDA:=unit) cKeywords) !! a.
Proof.
  apply (init_config_missing_attribute encoder_attrs any_file ["name"] ["tile"] "units"
           (new cKeywords) (delete "units" keywords_cfg) "save").
  - reflexivity.
  - apply (bool_decide_unpack _). vm_compute. reflexivity.
  - reflexivity.
Defined.

Lemma dump_config_missing_attribute_witness :
  Evidence.dump_config encoder_attrs (new (LDA:=unit) cTypes) = Raise (AttributeError "name").
Proof.
  apply (dump_config_missing_attribute encoder_attrs [] ["units"; "tile"] "name"
           (new cTypes)).
  - reflexivity.
  - constructor.
  - reflexivity.
Defined.

Lemma init_config_state_round_trip_witness :
  Evidence.dump_config encoder_attrs
    (fst (Evidence.init_config encoder_attrs any_file (new cJavadoc) javadoc_cfg "save"))
  = Ok (restrict encoder_attrs javadoc_cfg).
Proof.
  apply (init_config_state_round_trip encoder_attrs any_file (new cJavadoc) javadoc_cfg "save").
  - apply (bool_decide_unpack _). vm_compute. reflexivity.
  - apply (bool_decide_unpack _). vm_compute. reflexivity.
Defined.

Lemma init_config_of_dump_witness :
  let self := setattr (setattr (setattr (new (LDA:=unit) cContext) "name" (VStr "context"))
                         "units" (VInt 8)) "tile" (VInt 2) in
  Evidence.init_config encoder_attrs any_file self
    (restrict encoder_attrs (ob_dict self)) "save"
  = Evidence.load_embedding any_file self "save".
Proof.
  apply (init_config_of_dump encoder_attrs any_file).
  vm_compute. reflexivity.
Defined.

(** ** The registry: what the instances hold and where it stops *)

Section RegistryEdges.
Context {LDA : Type}.
Variable CONFIG_ENCODER : list string.
Variable LDA_from_file : string -> result LDA LDA.

Local Abbreviation init_config := (Evidence.init_config CONFIG_ENCODER LDA_from_file).
Local Abbreviation read_entries := (Evidence.read_entries CONFIG_ENCODER LDA_from_file).
Local Abbreviation read_config := (Evidence.read_config CONFIG_ENCODER LDA_from_file).

Lemma read_entries_dumps (js : list (gmap string (pyval LDA))) (save_dir : string)
    (acc es : list (obj LDA)) :
  "lda" ∉ CONFIG_ENCODER ->
  read_entries js save_dir acc = Ok es ->
  exists made,
    es = acc ++ made
    /\ Forall2 (fun evidence e =>
                  Evidence.dump_config CONFIG_ENCODER e
                  = Ok (restrict CONFIG_ENCODER evidence)) js made.
Proof.
  intros Hlda. revert acc.
  induction js as [|evidence js IH]; intros acc; cbn [Evidence.read_entries].
  - intros [= <-]. exists []. by rewrite app_nil_r.
  - destruct (getitem evidence "name") as [name|]; [|discriminate]. cbn [bind].
    destruct (Evidence.dispatch name) as [e0|]; [|discriminate]. cbn [bind].
    destruct (init_config e0 evidence save_dir) as [e [[]|x]] eqn:Hinit; [|discriminate].
    intros Hrest. destruct (IH _ Hrest) as (made & -> & Hmade).
    exists (e :: made). split; [by rewrite <- app_assoc|].
    constructor; [|exact Hmade].
    by destruct (init_config_returns _ _ _ _ _ _ Hlda Hinit) as (_ & Hdump & _).
Qed.

(** X5.  The list [read_config] returns dumps back to the configuration
    list: instance [i] dumps to entry [i] restricted to the recognized
    attributes (none of them named [lda]). *)
Theorem read_config_round_trip (js : list (gmap string (pyval LDA))) (save_dir : string)
    (es : list (obj LDA)) :
  "lda" ∉ CONFIG_ENCODER ->
  read_config js save_dir = Ok es ->
  Forall2 (fun evidence e =>
             Evidence.dump_config CONFIG_ENCODER e = Ok (restrict CONFIG_ENCODER evidence))
          js es.
Proof.
  intros Hlda Hread. unfold Evidence.read_config in Hread.
  by destruct (read_entries_dumps _ _ _ _ Hlda Hread) as (made & -> & Hmade).
Qed.

(** X6.  An entry without a [name] makes [read_config] raise [KeyError]
    for [name], once the entries before it are made; the entries after it
    are not read. *)
Theorem read_config_missing_name (pre post : list (gmap string (pyval LDA)))
    (evidence : gmap string (pyval LDA)) (save_dir : string) (es : list (obj LDA)) :
  read_config pre save_dir = Ok es ->
  evidence !! "name" = None ->
  read_config (pre ++ evidence :: post) save_dir = Raise (KeyError "name").
Proof.
  intros Hpre Hname. unfold Evidence.read_config in *.
  rewrite (read_entries_app _ _ _ _ _ _ _ Hpre). cbn [Evidence.read_entries].
  unfold getitem. by rewrite Hname.
Qed.

(** X7.  When [init_config] raises on the instance made for an entry,
    [read_config] raises the same exception and returns no instance at all,
    whatever the entries after it are. *)
Theorem read_config_init_failure (pre post : list (gmap string (pyval LDA)))
    (evidence : gmap string (pyval LDA)) (save_dir : string) (es : list (obj LDA))
    (name : pyval LDA) (c : cls) (x : exn LDA) :
  read_config pre save_dir = Ok es ->
  evidence !! "name" = Some name ->
  kind_named name = Some c ->
  snd (init_config (new c) evidence save_dir) = Raise x ->
  read_config (pre ++ evidence :: post) save_dir = Raise x.
Proof.
  intros Hpre Hname Hkind Hinit. unfold Evidence.read_config in *.
  rewrite (read_entries_app _ _ _ _ _ _ _ Hpre). cbn [Evidence.read_entries].
  unfold getitem. rewrite Hname. cbn [bind]. rewrite dispatch_table, Hkind. cbn [bind].
  destruct (init_config (new c) evidence save_dir) as [e [[]|y]]; simpl in Hinit;
    [discriminate | by injection Hinit as ->].
Qed.

End RegistryEdges.

Lemma read_config_round_trip_witness :
  exists es,
    Evidence.read_config encoder_attrs any_file [keywords_cfg; context_cfg] "save" = Ok es
    /\ Forall2 (fun evidence e =>
                  Evidence.dump_config encoder_attrs e = Ok (restrict encoder_attrs evidence))
               [keywords_cfg; context_cfg] es.
Proof.
  eexists. split; [vm_compute; reflexivity|].
  apply (read_config_round_trip encoder_attrs any_file [keywords_cfg; context_cfg] "save").
  - apply (bool_decide_unpack _). vm_compute. reflexivity.
  - vm_compute. reflexivity.
Defined.

Lemma read_config_missing_name_witness :
  Evidence.read_config encoder_attrs any_file
    ([keywords_cfg] ++ delete "name" types_cfg :: [context_cfg]) "save"
  = Raise (KeyError "name").
Proof.
  eapply (read_config_missing_name encoder_attrs any_file [keywords_cfg] [context_cfg]
            (delete "name" types_cfg) "save"); reflexivity.
Defined.

Lemma read_config_init_failure_witness :
  Evidence.read_config encoder_attrs any_file
    ([keywords_cfg] ++ delete "tile" types_cfg :: [context_cfg]) "save"
  = Raise (KeyError "tile").
Proof.
  eapply (read_config_init_failure encoder_attrs any_file [keywords_cfg] [context_cfg]
            (delete "tile" types_cfg) "save" _ (VStr "types") cTypes); reflexivity.
Defined.

(** ** Encoding: scopes, the tile factor and the configuration *)

Section EncodeEdges.
Context {LDA F : Type}.
Variable zero : F.
Variable add mul : F -> F -> F.
Variable init : string -> nat -> nat -> F.

(** The latent encoding built in a scope. *)
Local Abbreviation latent_encoding scope inputs units latent :=
  (TF.xw_plus_b zero add mul
     (TF.dense zero add mul init scope inputs (Z.to_nat units))
     (TF.get_variable2 init scope "w" (Z.to_nat units) (Z.to_nat latent))
     (TF.get_variable1 init scope "b" (Z.to_nat latent))).

Lemma encode_value (self : obj LDA) (inputs : TF.tensor F) (config : config)
    (units tile : Z) :
  ob_dict self !! "units" = Some (VInt units) ->
  ob_dict self !! "tile" = Some (VInt tile) ->
  (0 <= units)%Z -> (0 <= latent_size config)%Z ->
  Keywords.encode zero add mul init self inputs config
  = Ok (replicate (Z.to_nat tile)
          (latent_encoding "keywords" inputs units (latent_size config)))
  /\ Types.encode zero add mul init self inputs config
     = Ok (replicate (Z.to_nat tile)
             (latent_encoding "types" inputs units (latent_size config)))
  /\ Context.encode zero add mul init self inputs config
     = Ok (replicate (Z.to_nat tile)
             (latent_encoding "context" inputs units (latent_size config))).
Proof.
  intros Hunits Htile Hu Hl.
  unfold Keywords.encode, Types.encode, Context.encode, getattr.
  rewrite Hunits, Htile. cbn [bind as_int].
  rewrite !(dimension_ok _ Hu), !(dimension_ok _ Hl). cbn [bind].
  repeat split; reflexivity.
Qed.

(** X8.  Each kind reads its trainable variables under its own scope only:
    replacing every variable whose name does not start with the scope of
    the kind leaves what [encode] returns unchanged. *)
Theorem encode_scope_isolation (outside : string -> nat -> nat -> F)
    (self : obj LDA) (inputs : TF.tensor F) (config : config) :
  Keywords.encode zero add mul (overlay "keywords/" init outside) self inputs config
  = Keywords.encode zero add mul init self inputs config
  /\ Types.encode zero add mul (overlay "types/" init outside) self inputs config
     = Types.encode zero add mul init self inputs config
  /\ Context.encode zero add mul (overlay "context/" init outside) self inputs config
     = Context.encode zero add mul init self inputs config.
Proof. repeat split; reflexivity. Qed.

(** X9.  A tile factor of zero or less gives the empty list of encodings,
    not an error. *)
Theorem encode_no_copies (self : obj LDA) (inputs : TF.tensor F) (config : config)
    (units tile : Z) :
  ob_dict self !! "units" = Some (VInt units) ->
  ob_dict self !! "tile" = Some (VInt tile) ->
  (0 <= units)%Z -> (0 <= latent_size config)%Z ->
  (tile <= 0)%Z ->
  Keywords.encode zero add mul init self inputs config = Ok []
  /\ Types.encode zero add mul init self inputs config = Ok []
  /\ Context.encode zero add mul init self inputs config = Ok [].
Proof.
  intros Hunits Htile Hu Hl Ht.
  destruct (encode_value self inputs config units tile Hunits Htile Hu Hl)
    as (-> & -> & ->).
  replace (Z.to_nat tile) with 0%nat by lia. repeat split; reflexivity.
Qed.

End EncodeEdges.

(** ** From a configuration record to tensors *)

Section Configured.
Context {LDA F : Type}.
Variable CONFIG_ENCODER : list string.
Variable LDA_from_file : string -> result LDA LDA.
Variable n_topics : LDA -> Z.
Variable zero : F.
Variable add mul : F -> F -> F.
Variable init : string -> nat -> nat -> F.

Lemma init_config_model (self self' : obj LDA) (cfg : gmap string (pyval LDA))
    (save_dir : string) :
  Evidence.init_config CONFIG_ENCODER LDA_from_file self cfg save_dir = (self', Ok tt) ->
  exists m, ob_dict self' !! "lda" = Some (VModel m).
Proof.
  unfold Evidence.init_config.
  destruct (Evidence.copy_attrs CONFIG_ENCODER self cfg) as [self1 [[]|e]]; [|discriminate].
  unfold Evidence.load_embedding, Keywords.load_embedding,
    Types.load_embedding, Context.load_embedding.
  destruct (ob_class self1); cbv zeta; try discriminate;
    match goal with |- context [LDA_from_file ?p] => destruct (LDA_from_file p) as [m|e] end;
    try discriminate; intros [= <-]; exists m; cbn [setattr ob_dict];
    apply lookup_insert_eq.
Qed.

(** X10.  An instance initialized from a record encodes with the [units]
    and the [tile] of that record: [encode] returns [tile] copies of an
    encoding with [latent_size] entries per row. *)
Theorem encode_after_init_config (self self' : obj LDA) (cfg : gmap string (pyval LDA))
    (save_dir : string) (inputs : TF.tensor F) (config : config) (units tile : Z) :
  "units" ∈ CONFIG_ENCODER -> "tile" ∈ CONFIG_ENCODER -> "lda" ∉ CONFIG_ENCODER ->
  cfg !! "units" = Some (VInt units) ->
  cfg !! "tile" = Some (VInt tile) ->
  (0 <= units)%Z -> (0 <= tile)%Z -> (0 <= latent_size config)%Z ->
  Evidence.init_config CONFIG_ENCODER LDA_from_file self cfg save_dir = (self', Ok tt) ->
  tiled (Keywords.encode zero add mul init self' inputs config)
        tile (latent_size config) (length (TF.rows inputs))
  /\ tiled (Types.encode zero add mul init self' inputs config)
        tile (latent_size config) (length (TF.rows inputs))
  /\ tiled (Context.encode zero add mul init self' inputs config)
        tile (latent_size config) (length (TF.rows inputs)).
Proof.
  intros Hu_in Ht_in Hlda Hunits Htile Hu Ht Hl Hinit.
  destruct (init_config_returns _ _ _ _ _ _ Hlda Hinit) as (_ & _ & Hsame).
  rewrite <- (Hsame _ Hu_in) in Hunits. rewrite <- (Hsame _ Ht_in) in Htile.
  destruct (encode_value zero add mul init self' inputs config units tile
              Hunits Htile Hu Hl) as (-> & -> & ->).
  repeat split; apply tiled_encoding; assumption.
Qed.

(** X11.  Once [init_config] has returned, [placeholder] declares the shape
    [[batch_size, n_topics]] with the topic count of the model that was
    loaded. *)
Theorem placeholder_after_init_config (self self' : obj LDA)
    (cfg : gmap string (pyval LDA)) (save_dir : string) (config : config) :
  (0 <= batch_size config)%Z ->
  (forall m, 0 <= n_topics m)%Z ->
  Evidence.init_config CONFIG_ENCODER LDA_from_file self cfg save_dir = (self', Ok tt) ->
  exists m,
    ob_dict self' !! "lda" = Some (VModel m)
    /\ Keywords.placeholder n_topics self' config
       = Ok [Z.to_nat (batch_size config); Z.to_nat (n_topics m)]
    /\ Types.placeholder n_topics self' config
       = Ok [Z.to_nat (batch_size config); Z.to_nat (n_topics m)]
    /\ Context.placeholder n_topics self' config
       = Ok [Z.to_nat (batch_size config); Z.to_nat (n_topics m)].
Proof.
  intros Hbatch Htopics Hinit.
  destruct (init_config_model _ _ _ _ Hinit) as [m Hm]. exists m.
  split; [exact Hm|].
  unfold Keywords.placeholder, Types.placeholder, Context.placeholder, getattr.
  rewrite Hm. cbn [bind n_topics_of TF.placeholder].
  rewrite (dimension_ok _ Hbatch), (dimension_ok _ (Htopics m)). cbn [bind].
  repeat split; reflexivity.
Qed.

(** Before the embedding is loaded there is no model to ask. *)
Lemma placeholder_unloaded (self : obj LDA) (config : config) :
  ob_dict self !! "lda" = None ->
  Keywords.placeholder n_topics self config = Raise (AttributeError "lda").
Proof. intros Hnone. unfold Keywords.placeholder, getattr. by rewrite Hnone. Qed.

End Configured.

Lemma encode_no_copies_witness :
  let self := setattr (setattr (new (LDA:=unit) cTypes) "units" (VInt 2)) "tile" (VInt (-1)) in
  let inputs := TF.Tensor 2 [[1; 0]; [0; 1]]%Z in
  Keywords.encode 0%Z Z.add Z.mul (fun _ i j => Z.of_nat (i + j)) self inputs (Config 4 2)
  = Ok []
  /\ Types.encode 0%Z Z.add Z.mul (fun _ i j => Z.of_nat (i + j)) self inputs (Config 4 2)
     = Ok []
  /\ Context.encode 0%Z Z.add Z.mul (fun _ i j => Z.of_nat (i + j)) self inputs (Config 4 2)
     = Ok [].
Proof.
  apply (encode_no_copies 0%Z Z.add Z.mul (fun _ i j => Z.of_nat (i + j))
           (setattr (setattr (new (LDA:=unit) cTypes) "units" (VInt 2)) "tile" (VInt (-1)))
           (TF.Tensor 2 [[1; 0]; [0; 1]]%Z) (Config 4 2) 2 (-1));
    try reflexivity; simpl; lia.
Defined.

Lemma encode_after_init_config_witness :
  exists self',
    Evidence.init_config encoder_attrs any_file (new cKeywords) keywords_cfg "save"
    = (self', Ok tt)
    /\ tiled (Keywords.encode 0%Z Z.add Z.mul (fun _ i j => Z.of_nat (i + j)) self'
                (TF.Tensor 2 [[1; 0]; [0; 1]]%Z) (Config 4 2)) 1 4 2.
Proof.
  eexists. split; [vm_compute; reflexivity|].
  refine (proj1 (encode_after_init_config encoder_attrs any_file 0%Z Z.add Z.mul
                   (fun _ i j => Z.of_nat (i + j)) (new cKeywords) _ keywords_cfg "save"
                   (TF.Tensor 2 [[1; 0]; [0; 1]]%Z) (Config 4 2) 8 1
                   _ _ _ _ _ _ _ _ _));
    try (apply (bool_decide_unpack _); vm_compute; reflexivity);
    try reflexivity; simpl; lia.
Defined.

Lemma placeholder_after_init_config_witness :
  let loaded :=
    fst (Evidence.init_config (LDA:=nat) encoder_attrs (fun _ => Ok 50%nat) (new cContext)
           (<["name" := VStr "context"]> (<["units" := VInt 8]> (<["tile" := VInt 1]> ∅)))
           "save") in
  exists m,
    ob_dict loaded !! "lda" = Some (VModel m)
    /\ Keywords.placeholder Z.of_nat loaded (Config 4 16) = Ok [16%nat; Z.to_nat (Z.of_nat m)]
    /\ Types.placeholder Z.of_nat loaded (Config 4 16) = Ok [16%nat; Z.to_nat (Z.of_nat m)]
    /\ Context.placeholder Z.of_nat loaded (Config 4 16) = Ok [16%nat; Z.to_nat (Z.of_nat m)].
Proof.
  apply (placeholder_after_init_config encoder_attrs (fun _ => Ok 50%nat) Z.of_nat
           (new cContext) _
           (<["name" := VStr "context"]> (<["units" := VInt 8]> (<["tile" := VInt 1]> ∅)))
           "save" (Config 4 16)).
  - simpl. lia.
  - intros m. lia.
  - vm_compute. reflexivity.
Defined.

(** ** The extraction heuristics on whole calls *)

Module SplitFacts.

Lemma split_at (sep : ascii) (s rest : string) :
  Str.contains sep s = false ->
  Str.split sep (s +:+ String sep rest) = s :: Str.split sep rest.
Proof.
  induction s as [|c s IH]; simpl.
  - intros _. by rewrite Ascii.eqb_refl.
  - intros H. apply orb_false_iff in H as [Hc Hs]. by rewrite Hc, (IH Hs).
Qed.

Lemma split_prefix (sep : ascii) (a b : string) :
  Str.contains sep a = false ->
  exists h t, Str.split sep b = h :: t /\ Str.split sep (a +:+ b) = (a +:+ h) :: t.
Proof.
  intros Ha. destruct (Str.split sep b) as [|h t] eqn:Hb.
  { by destruct (StrFacts.split_nonempty sep b). }
  exists h, t. split; [reflexivity|].
  induction a as [|c a IH]; simpl; [exact Hb|].
  simpl in Ha. apply orb_false_iff in Ha as [Hc Ha]. by rewrite Hc, (IH Ha).
Qed.

Lemma split_present (sep : ascii) (s : string) :
  Str.contains sep s = true ->
  exists a b rest, Str.split sep s = a :: b :: rest.
Proof.
  induction s as [|c s IH]; simpl; [discriminate|].
  destruct (Ascii.eqb c sep) eqn:Hc; simpl.
  - intros _. destruct (Str.split sep s) as [|b rest] eqn:Hs.
    { by destruct (StrFacts.split_nonempty sep s). }
    by exists EmptyString, b, rest.
  - intros Hs. destruct (IH Hs) as (a & b & rest & ->). by exists (String c a), b, rest.
Qed.

End SplitFacts.

Section ItemFacts.
Context {LDA A : Type}.

Lemma item_last (l : list A) (a : A) :
  Py.item (LDA:=LDA) (l ++ [a]) (-1) = Ok a.
Proof.
  unfold Py.item. rewrite length_app. simpl length.
  destruct (-1 <? 0)%Z eqn:E; [|discriminate E].
  destruct (Z.of_nat (length l + 1) + -1 <? 0)%Z eqn:E'; [apply Z.ltb_lt in E'; lia|].
  replace (Z.to_nat _) with (length l) by lia.
  by rewrite list_lookup_middle.
Qed.

Lemma item_last_total (l : list A) :
  l <> [] -> exists a, Py.item (LDA:=LDA) l (-1) = Ok a.
Proof.
  intros Hl. destruct (exists_last Hl) as (l' & a & ->). exists a. apply item_last.
Qed.

Lemma slice_to_init (l : list A) (a : A) : Py.slice_to (l ++ [a]) (-1) = l.
Proof.
  unfold Py.slice_to.
  assert (Py.bound (length (l ++ [a])) (-1) = length l) as ->.
  { unfold Py.bound. rewrite length_app. simpl length.
    destruct (-1 <? 0)%Z eqn:E; [lia | discriminate E]. }
  by rewrite take_app_length.
Qed.

End ItemFacts.

Section WholeCalls.
Context {LDA : Type}.
Variable tokenizer : string -> list string.

(** X12.  For a call [before(rest], where [before] has no parenthesis and
    ends in two dot-segments that differ, Keywords.from_call returns the
    tokens of the last segment, the member name; the class, the segments
    before it and everything from the parenthesis on play no part. *)
Theorem Keywords_from_call_member (before rest cls name : string) (outer : list string) :
  Str.contains "(" before = false ->
  Str.split "." before = outer ++ [cls; name] ->
  cls <> name ->
  Keywords.from_call (LDA:=LDA) tokenizer (before +:+ String "(" rest)
  = Ok (tokenizer name).
Proof.
  intros Hparen Hsplit Hne. unfold Keywords.from_call.
  rewrite (SplitFacts.split_at _ _ _ Hparen). change (Py.item _ 0) with (@Ok LDA _ before).
  cbn [bind]. rewrite Hsplit, slice_from_last_two.
  apply String.eqb_neq in Hne. by rewrite Hne.
Qed.

Lemma upper_segments_filter (qs : list string) :
  Forall (fun q => q <> "") qs ->
  Types.upper_segments (LDA:=LDA) qs
  = Ok (filter (fun q => Str.starts_upper q = true) qs).
Proof.
  induction 1 as [|q qs Hq _ IH]; [reflexivity|].
  cbn [Types.upper_segments]. destruct q as [|c q]; [contradiction|].
  change (Py.item _ 0) with (@Ok LDA _ c). cbn [bind]. rewrite IH. cbn [bind].
  rewrite filter_cons. simpl Str.starts_upper.
  destruct (Str.isupper c); [by rewrite decide_True | by rewrite decide_False].
Qed.

Lemma upper_segments_empty (qs : list string) :
  "" ∈ qs -> Types.upper_segments (LDA:=LDA) qs = Raise IndexError.
Proof.
  induction qs as [|q qs IH]; [by intros ?%elem_of_nil|].
  intros [<- | Hin]%elem_of_cons; [reflexivity|].
  cbn [Types.upper_segments]. rewrite (IH Hin).
  destruct q; reflexivity.
Qed.

(** X13.  For a call [before(rest] whose segments before the member are
    not empty, Types.from_call returns the tokens of the last segment that
    starts with a capital, then those of the capitalized segment before it
    when there is one; no other segment contributes. *)
Theorem Types_from_call_capitals (before rest member inner : string)
    (qs kept : list string) :
  Str.contains "(" before = false ->
  Str.split "." before = qs ++ [member] ->
  Forall (fun q => q <> "") qs ->
  filter (fun q => Str.starts_upper q = true) qs = kept ++ [inner] ->
  Types.from_call (LDA:=LDA) tokenizer (before +:+ String "(" rest)
  = Ok (tokenizer inner ++ from_option tokenizer [] (last kept)).
Proof.
  intros Hparen Hsplit Hqs Hkept. unfold Types.from_call.
  rewrite (SplitFacts.split_at _ _ _ Hparen).
  rewrite (item_head (LDA:=LDA) (before :: Str.split "(" rest) before eq_refl).
  cbn [bind]. rewrite Hsplit, slice_to_init, (upper_segments_filter _ Hqs), Hkept.
  cbn [bind]. rewrite rev_app_distr. simpl rev. simpl app.
  change (Py.item (inner :: _) 0) with (@Ok LDA _ inner). cbn [bind].
  destruct kept as [|k kept _] using rev_ind; [reflexivity|].
  rewrite rev_app_distr, last_snoc. simpl. reflexivity.
Qed.

(** X14.  An empty dot-segment before the member (two dots in a row, or a
    dot in front) makes Types.from_call raise [IndexError], capitals or
    not. *)
Theorem Types_from_call_empty_segment (before rest member : string) (qs : list string) :
  Str.contains "(" before = false ->
  Str.split "." before = qs ++ [member] ->
  "" ∈ qs ->
  Types.from_call (LDA:=LDA) tokenizer (before +:+ String "(" rest) = Raise IndexError.
Proof.
  intros Hparen Hsplit Hempty. unfold Types.from_call.
  rewrite (SplitFacts.split_at _ _ _ Hparen).
  rewrite (item_head (LDA:=LDA) (before :: Str.split "(" rest) before eq_refl).
  cbn [bind]. by rewrite Hsplit, slice_to_init, (upper_segments_empty _ Hempty).
Qed.

Lemma last_segments_total (args : list string) :
  exists segs, Context.last_segments (LDA:=LDA) args = Ok segs.
Proof.
  induction args as [|arg args [segs IH]]; [by exists []|].
  cbn [Context.last_segments].
  destruct (item_last_total (LDA:=LDA) (Str.split "." arg)
              (StrFacts.split_nonempty _ _)) as [seg ->].
  cbn [bind]. rewrite IH. cbn [bind]. by eexists.
Qed.

(** X15.  Context.from_call raises exactly when the call has no opening
    parenthesis, and then [IndexError]; otherwise it returns a list, in
    which no token is empty. *)
Theorem Context_from_call_outcome (call : string) :
  if Str.contains "(" call
  then exists tokens,
         Context.from_call (LDA:=LDA) tokenizer call = Ok tokens /\ "" ∉ tokens
  else Context.from_call (LDA:=LDA) tokenizer call = Raise IndexError.
Proof.
  destruct (Str.contains "(" call) eqn:Hparen; unfold Context.from_call.
  - destruct (SplitFacts.split_present _ _ Hparen) as (a & b & rest & ->).
    change (Py.item (a :: b :: rest) 1) with (@Ok LDA _ b). cbn [bind].
    destruct (StrFacts.split_head ")" b) as [inside Hinside].
    rewrite (item_head _ _ Hinside). cbn [bind].
    destruct (last_segments_total (Str.split "," inside)) as [segs ->]. cbn [bind].
    eexists. split; [reflexivity|].
    intros Hin%list_elem_of_filter. by destruct Hin as [Hne _].
  - by rewrite (StrFacts.split_absent _ _ Hparen).
Qed.

Lemma Context_from_call_inside (name args rest : string) :
  Str.contains "(" name = false ->
  Str.contains "(" args = false ->
  Str.contains ")" args = false ->
  Context.from_call (LDA:=LDA) tokenizer (name +:+ String "(" (args +:+ String ")" rest))
  = (let* segs := Context.last_segments (Str.split "," args) in
     Ok (filter (fun c => c ≠ "")
           (concat (map tokenizer
                      (map Str.sub_array (map (Str.sub_generics false) segs)))))).
Proof.
  intros Hname Hopen Hclose. unfold Context.from_call.
  rewrite (SplitFacts.split_at _ _ _ Hname).
  destruct (SplitFacts.split_prefix "(" args (String ")" rest) Hopen)
    as (h & t & Hh & ->).
  change (Py.item (name :: _) 1) with (@Ok LDA _ (args +:+ h)). cbn [bind].
  assert (exists h', h = String ")" h') as [h' ->].
  { simpl in Hh. destruct (Str.split "(" rest); injection Hh as <- _; by eexists. }
  rewrite (SplitFacts.split_at _ _ _ Hclose).
  change (Py.item (args :: _) 0) with (@Ok LDA _ args). reflexivity.
Qed.

(** X16.  Context.from_call reads the text between the first opening
    parenthesis and the closing one after it, nothing else: the method name
    in front and whatever follows the closing parenthesis can be replaced
    without changing the result. *)
Theorem Context_from_call_arguments_only (name name' args rest rest' : string) :
  Str.contains "(" name = false ->
  Str.contains "(" name' = false ->
  Str.contains "(" args = false ->
  Str.contains ")" args = false ->
  Context.from_call (LDA:=LDA) tokenizer (name +:+ String "(" (args +:+ String ")" rest))
  = Context.from_call (LDA:=LDA) tokenizer (name' +:+ String "(" (args +:+ String ")" rest')).
Proof.
  intros Hname Hname' Hopen Hclose.
  by rewrite !Context_from_call_inside.
Qed.

End WholeCalls.

Lemma Keywords_from_call_member_witness :
  Keywords.from_call (LDA:=unit) split_camel ("java.util.List.addAll" +:+ String "(" "int)")
  = Ok (split_camel "addAll").
Proof.
  apply (Keywords_from_call_member split_camel "java.util.List.addAll" "int)" "List" "addAll"
           ["java"; "util"]); [reflexivity | reflexivity | discriminate].
Defined.

Lemma Types_from_call_capitals_witness :
  Types.from_call (LDA:=unit) split_camel
    ("java.util.Map.Entry.getKey" +:+ String "(" ")")
  = Ok (split_camel "Entry" ++ from_option split_camel [] (last ["Map"])).
Proof.
  apply (Types_from_call_capitals split_camel "java.util.Map.Entry.getKey" ")" "getKey"
           "Entry" ["java"; "util"; "Map"; "Entry"] ["Map"]).
  - reflexivity.
  - reflexivity.
  - repeat constructor; discriminate.
  - reflexivity.
Defined.

Lemma Types_from_call_empty_segment_witness :
  Types.from_call (LDA:=unit) split_camel ("a..Foo.bar" +:+ String "(" "x)")
  = Raise IndexError.
Proof.
  apply (Types_from_call_empty_segment split_camel "a..Foo.bar" "x)" "bar" ["a"; ""; "Foo"]).
  - reflexivity.
  - reflexivity.
  - apply (bool_decide_unpack _). reflexivity.
Defined.

Lemma Context_from_call_arguments_only_witness :
  Context.from_call (LDA:=unit) split_camel
    ("m" +:+ String "(" ("a.B<T>, c[]" +:+ String ")" ""))
  = Context.from_call (LDA:=unit) split_camel
      ("java.util.List.add" +:+ String "(" ("a.B<T>, c[]" +:+ String ")" ".size()")).
Proof.
  apply (Context_from_call_arguments_only split_camel "m" "java.util.List.add"
           "a.B<T>, c[]" "" ".size()"); reflexivity.
Defined.

(** ** The words of a javadoc *)

Section Words.

Lemma words_are_words (s : string) :
  all_chars (fun c => negb (Str.isspace c)) (fst (Str.words s)) = true
  /\ Forall is_word (snd (Str.words s)).
Proof.
  induction s as [|c s [IHw IHws]]; simpl; [by split|].
  destruct (Str.words s) as [w ws]. simpl in *.
  destruct (Str.isspace c) eqn:Hc; simpl.
  - split; [reflexivity|]. destruct w as [|d w]; [exact IHws|].
    constructor; [|exact IHws]. split; [discriminate | exact IHw].
  - by rewrite Hc, IHw.
Qed.

Lemma split_ws_words (s : string) : Forall is_word (Str.split_ws s).
Proof.
  unfold Str.split_ws. destruct (words_are_words s) as [Hw Hws].
  destruct (Str.words s) as [w ws]. simpl in *.
  destruct w as [|d w]; [exact Hws|].
  constructor; [|exact Hws]. split; [discriminate | exact Hw].
Qed.

Lemma words_ascii (s : string) :
  Str.isascii s = true ->
  Str.isascii (fst (Str.words s)) = true
  /\ Forall (fun w => Str.isascii w = true) (snd (Str.words s)).
Proof.
  induction s as [|c s IH]; simpl; [by split|].
  intros [Hc Hs]%andb_true_iff. destruct (IH Hs) as [IHw IHws].
  destruct (Str.words s) as [w ws]. simpl in *.
  destruct (Str.isspace c); simpl.
  - split; [reflexivity|]. destruct w; [exact IHws | by constructor].
  - by rewrite Hc, IHw.
Qed.

Lemma split_ws_ascii (s : string) :
  Str.isascii s = true -> Forall (fun w => Str.isascii w = true) (Str.split_ws s).
Proof.
  intros Hs. unfold Str.split_ws. destruct (words_ascii s Hs) as [Hw Hws].
  destruct (Str.words s) as [w ws]. simpl in *.
  destruct w; [exact Hws | by constructor].
Qed.

(** X17.  Javadoc.read_data_point never raises, whatever the record holds;
    every token it returns is a word (not empty, no whitespace in it), and
    when the sentinel [UNK] is ASCII every token is ASCII. *)
Theorem Javadoc_read_data_point_tokens (LDA : Type) (UNK : string)
    (program : program) (infer : bool) :
  exists tokens,
    Javadoc.read_data_point (LDA:=LDA) UNK program infer = Ok tokens
    /\ Forall is_word tokens
    /\ (if Str.isascii UNK then Forall (fun w => Str.isascii w = true) tokens else True).
Proof.
  unfold Javadoc.read_data_point, Str.encode_ascii.
  set (text := match javadoc program with
               | Some s => if negb (Str.truthy s) then UNK else s
               | None => UNK
               end).
  destruct (Str.isascii text) eqn:Htext; cbn [bind].
  - exists (Str.split_ws text). split; [reflexivity|]. split; [apply split_ws_words|].
    destruct (Str.isascii UNK); [by apply split_ws_ascii | exact I].
  - exists (Str.split_ws UNK). split; [reflexivity|]. split; [apply split_ws_words|].
    destruct (Str.isascii UNK) eqn:HUNK; [by apply split_ws_ascii | exact I].
Qed.

End Words.

(** ** The vocabulary as an index of the character list *)

Section VocabularyIndex.
Context {LDA : Type}.
Variable C0 : string.
Variable load_chars : string -> result LDA (list string).

Local Abbreviation numbered ks n := (zip ks (map Z.of_nat (seq n (length ks)))).
Local Abbreviation insert_all ps d :=
  (fold_left (fun (d : gmap string Z) (p : string * Z) => <[fst p := snd p]> d) ps d).

Lemma insert_all_lookup (ks : list string) (n : nat) (d : gmap string Z)
    (w : string) (id : Z) :
  insert_all (numbered ks n) d !! w = Some id ->
  d !! w = Some id
  \/ ((Z.of_nat n <= id)%Z /\ ks !! (Z.to_nat id - n)%nat = Some w).
Proof.
  revert n d. induction ks as [|k ks IH]; intros n d; simpl; [by left|].
  intros [Hd | [Hle Hk]]%IH.
  - destruct (decide (k = w)) as [->|Hne].
    + rewrite lookup_insert_eq in Hd. injection Hd as <-. right.
      split; [lia|]. by replace (Z.to_nat (Z.of_nat n) - n)%nat with 0%nat by lia.
    + rewrite lookup_insert_ne in Hd by exact Hne. by left.
  - right. split; [lia|].
    by replace (Z.to_nat id - n)%nat with (S (Z.to_nat id - S n)) by lia.
Qed.

Lemma insert_all_covers (ks : list string) (n : nat) (d : gmap string Z) (w : string) :
  w ∈ ks -> is_Some (insert_all (numbered ks n) d !! w).
Proof.
  revert n d. induction ks as [|k ks IH]; intros n d; [by intros ?%elem_of_nil|].
  simpl. destruct (decide (w ∈ ks)) as [Hin|Hnin]; [intros _; by apply IH|].
  intros [-> | Hin]%elem_of_cons; [|contradiction].
  apply fold_insert_present. rewrite lookup_insert_eq. eauto.
Qed.

Lemma insert_all_domain (ks : list string) (n : nat) (d : gmap string Z) (w : string) :
  is_Some (insert_all (numbered ks n) d !! w) -> w ∈ ks \/ is_Some (d !! w).
Proof.
  intros [id Hid]. destruct (insert_all_lookup _ _ _ _ _ Hid) as [Hd | [_ Hk]].
  - right. eauto.
  - left. eapply list_elem_of_lookup_2, Hk.
Qed.

Lemma insert_all_distinct (ks : list string) (n : nat) (d : gmap string Z) :
  NoDup ks ->
  (forall k, k ∈ ks -> d !! k = None) ->
  size (insert_all (numbered ks n) d) = (size d + length ks)%nat
  /\ forall i w, ks !! i = Some w ->
                 insert_all (numbered ks n) d !! w = Some (Z.of_nat (n + i)).
Proof.
  intros Hnodup. revert n d.
  induction Hnodup as [|k ks Hk _ IH]; intros n d Hfresh; simpl.
  - split; [lia|]. intros i w Hi. by rewrite lookup_nil in Hi.
  - destruct (IH (S n) (<[k := Z.of_nat n]> d)) as [Hsize Hids].
    { intros k' Hk'. rewrite lookup_insert_ne by (intros <-; contradiction).
      apply Hfresh. by right. }
    split.
    + rewrite Hsize, map_size_insert_None by (apply Hfresh; by left). lia.
    + intros [|i] w Hi; simpl in Hi.
      * injection Hi as <-. rewrite fold_insert_absent by exact Hk.
        rewrite lookup_insert_eq. do 2 f_equal. lia.
      * rewrite (Hids i w Hi). do 2 f_equal. lia.
Qed.

(** A [set_dicts] that returns has set the three attributes from one list. *)
Lemma set_dicts_returns (self self' : obj LDA) (data : list (list string)) :
  Javadoc.set_dicts C0 load_chars self data = (self', Ok tt) ->
  vocab_of self' = Javadoc.dict_zip (chars_of self')
  /\ vocab_size_of self' = Some (Z.of_nat (size (vocab_of self'))).
Proof.
  unfold Javadoc.set_dicts.
  match goal with |- context [match ?r with Ok _ => _ | Raise _ => _ end] =>
    destruct r as [chars|e] end; [|discriminate].
  intros [= <-]. rewrite vocab_of_set, chars_of_set. split; [reflexivity|].
  unfold vocab_size_of. cbn [setattr ob_dict]. by rewrite lookup_insert_eq.
Qed.

(** X18.  After [set_dicts], [vocab] has an id for exactly the entries of
    [chars], and the id of an entry is a position at which [chars] holds
    it; [vocab_size] is the number of entries of [vocab].  This holds in
    both branches, repeated entries or not. *)
Theorem set_dicts_vocab_indexes_chars (self self' : obj LDA) (data : list (list string)) :
  Javadoc.set_dicts C0 load_chars self data = (self', Ok tt) ->
  (forall w, w ∈ chars_of self' <-> is_Some (vocab_of self' !! w))
  /\ (forall w id, vocab_of self' !! w = Some id ->
                   (0 <= id)%Z /\ chars_of self' !! Z.to_nat id = Some w)
  /\ vocab_size_of self' = Some (Z.of_nat (size (vocab_of self'))).
Proof.
  intros [Hvocab Hsize]%set_dicts_returns.
  split; [|split; [|exact Hsize]]; rewrite Hvocab; unfold Javadoc.dict_zip.
  - intros w. split; [apply insert_all_covers|].
    intros [Hin | [id Hid]]%insert_all_domain; [exact Hin|].
    by rewrite lookup_empty in Hid.
  - intros w id [Hd | [Hle Hk]]%insert_all_lookup.
    + by rewrite lookup_empty in Hd.
    + split; [lia|]. by rewrite Nat.sub_0_r in Hk.
Qed.

(** X19.  When [chars] holds no entry twice, [set_dicts] numbers it: the
    entry at position [i] has the id [i], and [vocab_size] is the length of
    [chars]. *)
Theorem set_dicts_numbers_chars (self self' : obj LDA) (data : list (list string)) :
  Javadoc.set_dicts C0 load_chars self data = (self', Ok tt) ->
  NoDup (chars_of self') ->
  (forall i w, chars_of self' !! i = Some w -> vocab_of self' !! w = Some (Z.of_nat i))
  /\ vocab_size_of self' = Some (Z.of_nat (length (chars_of self'))).
Proof.
  intros [Hvocab Hsize]%set_dicts_returns Hnodup.
  destruct (insert_all_distinct (chars_of self') 0 ∅ Hnodup) as [Hlen Hids].
  { intros k _. apply lookup_empty. }
  rewrite Hsize, Hvocab. unfold Javadoc.dict_zip. split.
  - intros i w Hi. by rewrite (Hids i w Hi).
  - rewrite Hlen, map_size_empty. reflexivity.
Qed.

(** X20.  Built from the corpus, the vocabulary has an id for the padding
    symbol and for every token of every sequence; when the padding symbol
    is not one of the tokens, no entry of [chars] repeats and [vocab_size]
    is one more than the number of distinct tokens. *)
Theorem set_dicts_corpus_vocabulary (self : obj LDA) (data : list (list string))
    (flag : pyval LDA) :
  ob_dict self !! "pretrained_embed" = Some flag ->
  truth flag = false ->
  exists self',
    Javadoc.set_dicts C0 load_chars self data = (self', Ok tt)
    /\ is_Some (vocab_of self' !! C0)
    /\ Forall (Forall (fun w => is_Some (vocab_of self' !! w))) data
    /\ (C0 ∉ concat data ->
        NoDup (chars_of self')
        /\ vocab_size_of self' = Some (Z.of_nat (S (length (list_set (concat data)))))).
Proof.
  intros Hflag Hfalse.
  assert (Hrun : Javadoc.set_dicts C0 load_chars self data
                 = (setattr (setattr (setattr self "chars"
                                        (VList (C0 :: list_set (concat data))))
                               "vocab" (VDict (Javadoc.dict_zip (C0 :: list_set (concat data)))))
                      "vocab_size"
                      (VInt (Z.of_nat (size (Javadoc.dict_zip (C0 :: list_set (concat data)))))),
                    Ok tt)).
  { unfold Javadoc.set_dicts, getattr. rewrite Hflag. cbn [bind]. by rewrite Hfalse. }
  eexists. split; [exact Hrun|].
  rewrite vocab_of_set, chars_of_set.
  assert (Hcover : forall w, w ∈ C0 :: list_set (concat data) ->
                     is_Some (Javadoc.dict_zip (C0 :: list_set (concat data)) !! w)).
  { intros w Hw. by apply insert_all_covers. }
  split; [apply Hcover; by left|]. split.
  - rewrite Forall_forall. intros point Hpoint. rewrite Forall_forall. intros w Hw.
    apply Hcover. right. rewrite list_set_elem_of.
    apply list_elem_of_In, in_concat. exists point. split; by apply list_elem_of_In.
  - intros Hfresh.
    assert (Hnodup : NoDup (C0 :: list_set (concat data))).
    { constructor; [by rewrite list_set_elem_of | apply list_set_NoDup]. }
    split; [exact Hnodup|].
    destruct (insert_all_distinct (C0 :: list_set (concat data)) 0 ∅ Hnodup) as [Hlen _].
    { intros k _. apply lookup_empty. }
    unfold vocab_size_of. cbn [setattr ob_dict]. rewrite lookup_insert_eq.
    unfold Javadoc.dict_zip. rewrite Hlen, map_size_empty. reflexivity.
Qed.


End VocabularyIndex.

Lemma set_dicts_vocab_indexes_chars_witness :
  let self' := fst (Javadoc.set_dicts "CLASS0" (fun _ => Ok ["CLASS0"; "a"; "b"; "a"])
                      javadoc_pretrained []) in
  (forall w, w ∈ chars_of self' <-> is_Some (vocab_of self' !! w))
  /\ (forall w id, vocab_of self' !! w = Some id ->
                   (0 <= id)%Z /\ chars_of self' !! Z.to_nat id = Some w)
  /\ vocab_size_of self' = Some (Z.of_nat (size (vocab_of self'))).
Proof.
  apply (set_dicts_vocab_indexes_chars "CLASS0" (fun _ => Ok ["CLASS0"; "a"; "b"; "a"])
           javadoc_pretrained _ []).
  vm_compute. reflexivity.
Defined.

Lemma set_dicts_numbers_chars_witness :
  let self' := fst (Javadoc.set_dicts "CLASS0" (fun _ => Ok ["CLASS0"; "a"; "b"])
                      javadoc_pretrained []) in
  (forall i w, chars_of self' !! i = Some w -> vocab_of self' !! w = Some (Z.of_nat i))
  /\ vocab_size_of self' = Some (Z.of_nat (length (chars_of self'))).
Proof.
  apply (set_dicts_numbers_chars "CLASS0" (fun _ => Ok ["CLASS0"; "a"; "b"])
           javadoc_pretrained _ []).
  - vm_compute. reflexivity.
  - apply (bool_decide_unpack _). vm_compute. reflexivity.
Defined.

Lemma set_dicts_corpus_vocabulary_witness :
  exists self',
    Javadoc.set_dicts "CLASS0" (fun _ => Ok []) javadoc_corpus [["reads"; "a"]; ["a"; "file"]]
    = (self', Ok tt)
    /\ is_Some (vocab_of self' !! "CLASS0")
    /\ Forall (Forall (fun w => is_Some (vocab_of self' !! w))) [["reads"; "a"]; ["a"; "file"]]
    /\ ("CLASS0" ∉ concat [["reads"; "a"]; ["a"; "file"]] ->
        NoDup (chars_of self')
        /\ vocab_size_of self'
           = Some (Z.of_nat (S (length (list_set (concat [["reads"; "a"]; ["a"; "file"]])))))).
Proof.
  apply (set_dicts_corpus_vocabulary "CLASS0" (fun _ => Ok []) javadoc_corpus
           [["reads"; "a"]; ["a"; "file"]] (VBool false)); reflexivity.
Defined.


(** ** The files of the topic models *)

Module PathFacts.

Lemma append_length (a b : string) :
  String.length (a +:+ b) = (String.length a + String.length b)%nat.
Proof. induction a as [|x a IH]; simpl; [reflexivity | congruence]. Qed.

Lemma append_cancel_l (a b c : string) : a +:+ b = a +:+ c -> b = c.
Proof. induction a as [|x a IH]; simpl; [done|]. intros [= H]. by apply IH. Qed.

Lemma append_cancel_r (a b c : string) : a +:+ c = b +:+ c -> a = b.
Proof.
  revert b. induction a as [|x a IH]; intros [|y b]; intros H.
  - reflexivity.
  - apply (f_equal String.length) in H. rewrite !append_length in H. simpl in H. lia.
  - apply (f_equal String.length) in H. rewrite !append_length in H. simpl in H. lia.
  - simpl in H. injection H as -> H. by rewrite (IH _ H).
Qed.

Lemma truthy_append (a t : string) : t <> "" -> Str.truthy (a +:+ t) = true.
Proof. intros Ht. destruct a; [by destruct t | reflexivity]. Qed.

Lemma endswith_sep_append (a t : string) :
  t <> "" -> Str.endswith_sep (a +:+ t) = Str.endswith_sep t.
Proof.
  intros Ht. induction a as [|x a IH]; [reflexivity|].
  simpl. rewrite IH. destruct (a +:+ t) eqn:E; [|reflexivity].
  destruct a; simpl in E; [contradiction | discriminate].
Qed.

(** The model file of a directory whose name does not end in a slash. *)
Lemma model_file (a t : string) :
  t <> "" -> Str.endswith_sep t = false ->
  Str.path_join (a +:+ t) "model.pkl" = (a +:+ t) +:+ "/model.pkl".
Proof.
  intros Ht Hsep. unfold Str.path_join. cbn [negb].
  by rewrite (truthy_append _ _ Ht), (endswith_sep_append _ _ Ht), Hsep.
Qed.

End PathFacts.

(** X22.  Under any save directory the three kinds load their topic model
    from three different files: with a loader that hands back the path it is
    given, the models stored under [lda] are pairwise different. *)
Theorem load_embedding_files_differ (self : obj string) (save_dir : string) :
  exists keywords_file types_file context_file,
    Keywords.load_embedding (fun path => Ok path) self save_dir
    = (setattr self "lda" (VModel keywords_file), Ok tt)
    /\ Types.load_embedding (fun path => Ok path) self save_dir
       = (setattr self "lda" (VModel types_file), Ok tt)
    /\ Context.load_embedding (fun path => Ok path) self save_dir
       = (setattr self "lda" (VModel context_file), Ok tt)
    /\ keywords_file <> types_file
    /\ keywords_file <> context_file
    /\ types_file <> context_file.
Proof.
  do 3 eexists. split; [reflexivity|]. split; [reflexivity|]. split; [reflexivity|].
  unfold Str.path_join at 2 4 6 8 10 12. cbn [negb].
  destruct (negb (Str.truthy save_dir) || Str.endswith_sep save_dir);
    try change (save_dir +:+ "/" +:+ "embed_keywords") with (save_dir +:+ "/embed_keywords");
    try change (save_dir +:+ "/" +:+ "embed_types") with (save_dir +:+ "/embed_types");
    try change (save_dir +:+ "/" +:+ "embed_context") with (save_dir +:+ "/embed_context");
    rewrite ?(PathFacts.model_file save_dir "embed_keywords"),
            ?(PathFacts.model_file save_dir "embed_types"),
            ?(PathFacts.model_file save_dir "embed_context"),
            ?(PathFacts.model_file save_dir "/embed_keywords"),
            ?(PathFacts.model_file save_dir "/embed_types"),
            ?(PathFacts.model_file save_dir "/embed_context") by done;
    repeat split; intros H%PathFacts.append_cancel_r%PathFacts.append_cancel_l;
    discriminate H.
Qed.
